(** * Hydrus file import: options, status reconciliation and the import job

    A shallow embedding of
      - hydrus/client/importing/options/FileImportOptions.py
      - hydrus/client/importing/ClientImportFiles.py
    and the properties of the ingestion pipeline that follow from the code.

    Python values are modelled as the code uses them: sizes, dimensions and
    media types are integers ([Z]), [None]-able fields are [option]s,
    serialised tuples are trees of Python values ([pyval]), exceptions are
    the constructors of [exn], and the job is an explicit state on which
    the methods act through a small state-and-exception monad that also
    records the calls made to the external collaborators. *)

From Stdlib Require Import ZArith List String Ascii Bool Lia DecimalString.
Import ListNotations.

Local Open Scope string_scope.
Local Open Scope Z_scope.

(** ** Exceptions and results *)

Module HydrusExceptions.

(** The exception classes that the two modules raise or catch.  Each
    carries the message it was built with.  [UnpackError] stands for the
    [ValueError]/[TypeError] of a failed tuple-unpacking assignment and
    [TypeError] for an operation applied to a value of the wrong Python
    type; [Exception] is any other fault of a collaborator. *)
Inductive exn : Type :=
| FileSizeException (msg : string)
| FileMissingException (msg : string)
| DecompressionBombException (msg : string)
| DamagedOrUnusualFileException (msg : string)
| UnpackError
| TypeError
| Exception (msg : string).

End HydrusExceptions.
Export HydrusExceptions.

(** The outcome of a call: a returned value or a raised exception. *)
Inductive result (A : Type) : Type :=
| Ok (a : A)
| Raise (e : exn).
Arguments Ok {A} a.
Arguments Raise {A} e.

Definition bytes : Type := list Byte.byte.

(** ** Constants and helpers of hydrus.core used by the two modules

    [HydrusConstants] and [HydrusData] are not part of the modelled files;
    the constants and the two pretty-printers are taken as parameters. *)

Record HydrusConstants : Type := {
  IMAGE_GIF : Z;
  DECOMPRESSION_BOMB_IMAGES : list Z;
  MIMES_WITH_THUMBNAILS : list Z;
  MIMES_WE_CAN_PHASH : list Z
}.

Record HydrusData : Type := {
  ToHumanBytes : Z -> string;
  ConvertResolutionToPrettyString : option Z * option Z -> string
}.

(** [x in collection] on media types. *)
Definition mime_in (mime : Z) (l : list Z) : bool :=
  existsb (Z.eqb mime) l.

(** ** FileImportOptions *)

Record FileImportOptions : Type := mkFileImportOptions {
  _exclude_deleted : bool;
  _do_not_check_known_urls_before_importing : bool;
  _do_not_check_hashes_before_importing : bool;
  _allow_decompression_bombs : bool;
  _min_size : option Z;
  _max_size : option Z;
  _max_gif_size : option Z;
  _min_resolution : option (Z * Z);
  _max_resolution : option (Z * Z);
  _automatic_archive : bool;
  _associate_primary_urls : bool;
  _associate_source_urls : bool;
  _present_new_files : bool;
  _present_already_in_inbox_files : bool;
  _present_already_in_archive_files : bool
}.

(** [FileImportOptions.__init__]. *)
Definition FileImportOptions__init__ : FileImportOptions := {|
  _exclude_deleted := true;
  _do_not_check_known_urls_before_importing := false;
  _do_not_check_hashes_before_importing := false;
  _allow_decompression_bombs := true;
  _min_size := None;
  _max_size := None;
  _max_gif_size := None;
  _min_resolution := None;
  _max_resolution := None;
  _automatic_archive := false;
  _associate_primary_urls := true;
  _associate_source_urls := true;
  _present_new_files := true;
  _present_already_in_inbox_files := true;
  _present_already_in_archive_files := true
|}.

Definition AllowsDecompressionBombs (self : FileImportOptions) : bool :=
  _allow_decompression_bombs self.

Definition AutomaticallyArchives (self : FileImportOptions) : bool :=
  _automatic_archive self.

Definition ExcludesDeleted (self : FileImportOptions) : bool :=
  _exclude_deleted self.

(** *** Serialised form *)

(** The Python values that occur in the serialised tuples. *)
#[warnings="-register-all"] Inductive pyval : Type :=
| PyNone
| PyBool (b : bool)
| PyInt (z : Z)
| PyTuple (items : list pyval).

Module Py.

Definition of_bool (b : bool) : pyval := PyBool b.

Definition of_size (o : option Z) : pyval :=
  match o with
  | None => PyNone
  | Some z => PyInt z
  end.

Definition of_resolution (o : option (Z * Z)) : pyval :=
  match o with
  | None => PyNone
  | Some (w, h) => PyTuple [PyInt w; PyInt h]
  end.

(** Reading a leaf back at the type the options' methods use it at.  Python
    stores whatever it unpacks; a leaf of another type cannot be held by the
    typed record and is reported as [TypeError]. *)
Definition to_bool (v : pyval) : result bool :=
  match v with
  | PyBool b => Ok b
  | _ => Raise TypeError
  end.

Definition to_size (v : pyval) : result (option Z) :=
  match v with
  | PyNone => Ok None
  | PyInt z => Ok (Some z)
  | _ => Raise TypeError
  end.

Definition to_resolution (v : pyval) : result (option (Z * Z)) :=
  match v with
  | PyNone => Ok None
  | PyTuple [PyInt w; PyInt h] => Ok (Some (w, h))
  | _ => Raise TypeError
  end.

End Py.

(** Sequencing of fallible pure computations. *)
Definition rbind {A B : Type} (r : result A) (k : A -> result B) : result B :=
  match r with
  | Ok a => k a
  | Raise e => Raise e
  end.

Notation "'let?' x ':=' r 'in' k" := (rbind r (fun x => k))
  (at level 10, x name, r at level 100, k at level 200).

Definition SERIALISABLE_VERSION : Z := 5.

Definition _GetSerialisableInfo (self : FileImportOptions) : pyval :=
  let pre_import_options :=
    PyTuple [ Py.of_bool (_exclude_deleted self);
              Py.of_bool (_do_not_check_known_urls_before_importing self);
              Py.of_bool (_do_not_check_hashes_before_importing self);
              Py.of_bool (_allow_decompression_bombs self);
              Py.of_size (_min_size self);
              Py.of_size (_max_size self);
              Py.of_size (_max_gif_size self);
              Py.of_resolution (_min_resolution self);
              Py.of_resolution (_max_resolution self) ] in
  let post_import_options :=
    PyTuple [ Py.of_bool (_automatic_archive self);
              Py.of_bool (_associate_primary_urls self);
              Py.of_bool (_associate_source_urls self) ] in
  let presentation_options :=
    PyTuple [ Py.of_bool (_present_new_files self);
              Py.of_bool (_present_already_in_inbox_files self);
              Py.of_bool (_present_already_in_archive_files self) ] in
  PyTuple [ pre_import_options; post_import_options; presentation_options ].

(** [_InitialiseFromSerialisableInfo] assigns all fifteen fields, so the
    object it returns does not depend on the fields [self] had before. *)
Definition _InitialiseFromSerialisableInfo
    (self : FileImportOptions) (serialisable_info : pyval)
  : result FileImportOptions :=
  match serialisable_info with
  | PyTuple [ pre_import_options; post_import_options; presentation_options ] =>
    match pre_import_options with
    | PyTuple [ exclude_deleted; do_not_check_known_urls; do_not_check_hashes;
                allow_decompression_bombs; min_size; max_size; max_gif_size;
                min_resolution; max_resolution ] =>
      match post_import_options with
      | PyTuple [ automatic_archive; associate_primary_urls;
                  associate_source_urls ] =>
        match presentation_options with
        | PyTuple [ present_new_files; present_already_in_inbox_files;
                    present_already_in_archive_files ] =>
          let? a := Py.to_bool exclude_deleted in
          let? b := Py.to_bool do_not_check_known_urls in
          let? c := Py.to_bool do_not_check_hashes in
          let? d := Py.to_bool allow_decompression_bombs in
          let? e := Py.to_size min_size in
          let? f := Py.to_size max_size in
          let? g := Py.to_size max_gif_size in
          let? h := Py.to_resolution min_resolution in
          let? i := Py.to_resolution max_resolution in
          let? j := Py.to_bool automatic_archive in
          let? k := Py.to_bool associate_primary_urls in
          let? l := Py.to_bool associate_source_urls in
          let? m := Py.to_bool present_new_files in
          let? n := Py.to_bool present_already_in_inbox_files in
          let? o := Py.to_bool present_already_in_archive_files in
          Ok (mkFileImportOptions a b c d e f g h i j k l m n o)
        | _ => Raise UnpackError
        end
      | _ => Raise UnpackError
      end
    | _ => Raise UnpackError
    end
  | _ => Raise UnpackError
  end.

(** [_UpdateSerialisableInfo]: one migration step.  The Python function
    returns [( new_version, new_serialisable_info )] from the branch of the
    given version; when no branch applies it falls off its end, which
    returns [None]: that is [Ok None] here. *)
Definition _UpdateSerialisableInfo (version : Z) (old_serialisable_info : pyval)
  : result (option (Z * pyval)) :=
  if version =? 1 then
    match old_serialisable_info with
    | PyTuple [ automatic_archive; exclude_deleted; min_size; min_resolution ] =>
      let present_new_files := PyBool true in
      let present_already_in_inbox_files := PyBool false in
      let present_already_in_archive_files := PyBool false in
      let new_serialisable_info :=
        PyTuple [ automatic_archive; exclude_deleted; present_new_files;
                  present_already_in_inbox_files;
                  present_already_in_archive_files; min_size; min_resolution ] in
      Ok (Some (2, new_serialisable_info))
    | _ => Raise UnpackError
    end
  else if version =? 2 then
    match old_serialisable_info with
    | PyTuple [ automatic_archive; exclude_deleted; present_new_files;
                present_already_in_inbox_files;
                present_already_in_archive_files; min_size; min_resolution ] =>
      let max_size := PyNone in
      let max_resolution := PyNone in
      let allow_decompression_bombs := PyBool true in
      let max_gif_size := PyInt (32 * 1048576) in
      let pre_import_options :=
        PyTuple [ exclude_deleted; allow_decompression_bombs; min_size;
                  max_size; max_gif_size; min_resolution; max_resolution ] in
      let post_import_options := automatic_archive in
      let presentation_options :=
        PyTuple [ present_new_files; present_already_in_inbox_files;
                  present_already_in_archive_files ] in
      let new_serialisable_info :=
        PyTuple [ pre_import_options; post_import_options;
                  presentation_options ] in
      Ok (Some (3, new_serialisable_info))
    | _ => Raise UnpackError
    end
  else if version =? 3 then
    match old_serialisable_info with
    | PyTuple [ PyTuple [ exclude_deleted; allow_decompression_bombs; min_size;
                          max_size; max_gif_size; min_resolution;
                          max_resolution ];
                post_import_options; presentation_options ] =>
      let automatic_archive := post_import_options in
      let do_not_check_known_urls_before_importing := PyBool false in
      let do_not_check_hashes_before_importing := PyBool false in
      let associate_source_urls := PyBool true in
      let pre_import_options :=
        PyTuple [ exclude_deleted; do_not_check_known_urls_before_importing;
                  do_not_check_hashes_before_importing;
                  allow_decompression_bombs; min_size; max_size; max_gif_size;
                  min_resolution; max_resolution ] in
      let post_import_options :=
        PyTuple [ automatic_archive; associate_source_urls ] in
      let new_serialisable_info :=
        PyTuple [ pre_import_options; post_import_options;
                  presentation_options ] in
      Ok (Some (4, new_serialisable_info))
    | _ => Raise UnpackError
    end
  else if version =? 4 then
    match old_serialisable_info with
    | PyTuple [ pre_import_options;
                PyTuple [ automatic_archive; associate_source_urls ];
                presentation_options ] =>
      let associate_primary_urls := PyBool true in
      let post_import_options :=
        PyTuple [ automatic_archive; associate_primary_urls;
                  associate_source_urls ] in
      let new_serialisable_info :=
        PyTuple [ pre_import_options; post_import_options;
                  presentation_options ] in
      Ok (Some (5, new_serialisable_info))
    | _ => Raise UnpackError
    end
  else Ok None.

(** Modelled from the spec: the loop of the serialisable base class
    ([HydrusSerialisable.SerialisableBase]) that drives the migration is
    missing from the modelled files.  Following "applied repeatedly until
    version 5", it calls [_UpdateSerialisableInfo] while the version is below
    [SERIALISABLE_VERSION] and unpacks each returned pair; unpacking the
    [None] of a version without a branch raises.  The result is [None] only
    when [fuel] steps did not reach the target version. *)
Fixpoint UpdateToCurrentVersion (fuel : nat) (version : Z) (serialisable_info : pyval)
  : option (result (Z * pyval)) :=
  if version <? SERIALISABLE_VERSION then
    match fuel with
    | O => None
    | S fuel' =>
      match _UpdateSerialisableInfo version serialisable_info with
      | Ok (Some (version', serialisable_info')) =>
        UpdateToCurrentVersion fuel' version' serialisable_info'
      | Ok None => Some (Raise UnpackError)
      | Raise e => Some (Raise e)
      end
    end
  else Some (Ok (version, serialisable_info)).

(** *** Validation *)

Section Validation.

Variable HC : HydrusConstants.
Variable HD : HydrusData.

Definition resolution_of (r : Z * Z) : option Z * option Z :=
  (Some (fst r), Some (snd r)).

(** [width is not None and width < min_width] *)
Definition below (dimension : option Z) (limit : Z) : bool :=
  match dimension with
  | None => false
  | Some d => d <? limit
  end.

(** [width is not None and width > max_width] *)
Definition above (dimension : option Z) (limit : Z) : bool :=
  match dimension with
  | None => false
  | Some d => d >? limit
  end.

Definition min_size_message (size min_size : Z) : string :=
  "File was " ++ ToHumanBytes HD size ++ " but the lower limit is "
    ++ ToHumanBytes HD min_size ++ ".".

Definition max_size_message (size max_size : Z) : string :=
  "File was " ++ ToHumanBytes HD size ++ " but the upper limit is "
    ++ ToHumanBytes HD max_size ++ ".".

Definition max_gif_size_message (size max_gif_size : Z) : string :=
  "File was " ++ ToHumanBytes HD size ++ " but the upper limit for gifs is "
    ++ ToHumanBytes HD max_gif_size ++ ".".

Definition min_resolution_message (width height : option Z) (min_resolution : Z * Z)
  : string :=
  "File had resolution " ++ ConvertResolutionToPrettyString HD (width, height)
    ++ " but the lower limit is "
    ++ ConvertResolutionToPrettyString HD (resolution_of min_resolution).

Definition max_resolution_message (width height : option Z) (max_resolution : Z * Z)
  : string :=
  "File had resolution " ++ ConvertResolutionToPrettyString HD (width, height)
    ++ " but the upper limit is "
    ++ ConvertResolutionToPrettyString HD (resolution_of max_resolution).

Definition CheckFileIsValid
    (self : FileImportOptions) (size : Z) (mime : Z) (width height : option Z)
  : result unit :=
  let? _ :=
    match _min_size self with
    | Some min_size =>
      if size <? min_size
      then Raise (FileSizeException (min_size_message size min_size))
      else Ok tt
    | None => Ok tt
    end in
  let? _ :=
    match _max_size self with
    | Some max_size =>
      if size >? max_size
      then Raise (FileSizeException (max_size_message size max_size))
      else Ok tt
    | None => Ok tt
    end in
  let? _ :=
    if mime =? IMAGE_GIF HC then
      match _max_gif_size self with
      | Some max_gif_size =>
        if size >? max_gif_size
        then Raise (FileSizeException (max_gif_size_message size max_gif_size))
        else Ok tt
      | None => Ok tt
      end
    else Ok tt in
  let? _ :=
    match _min_resolution self with
    | Some (min_width, min_height) =>
      let too_thin := below width min_width in
      let too_short := below height min_height in
      if too_thin || too_short
      then Raise (FileSizeException
                    (min_resolution_message width height (min_width, min_height)))
      else Ok tt
    | None => Ok tt
    end in
  match _max_resolution self with
  | Some (max_width, max_height) =>
    let too_wide := above width max_width in
    let too_tall := above height max_height in
    if too_wide || too_tall
    then Raise (FileSizeException
                  (max_resolution_message width height (max_width, max_height)))
    else Ok tt
  | None => Ok tt
  end.

End Validation.

(** ** FileImportStatus *)

Module CC.

(** Modelled from the spec: the status codes are constants of
    [ClientConstants], which is not among the modelled files.  The codes are
    the five of the status data model: Unknown, New, AlreadyPresent,
    PreviouslyDeleted and Vetoed, under the names the code uses. *)
Inductive status_code : Type :=
| STATUS_UNKNOWN
| STATUS_SUCCESSFUL_AND_NEW
| STATUS_SUCCESSFUL_BUT_REDUNDANT
| STATUS_DELETED
| STATUS_VETOED.

Definition eqb (a b : status_code) : bool :=
  match a, b with
  | STATUS_UNKNOWN, STATUS_UNKNOWN
  | STATUS_SUCCESSFUL_AND_NEW, STATUS_SUCCESSFUL_AND_NEW
  | STATUS_SUCCESSFUL_BUT_REDUNDANT, STATUS_SUCCESSFUL_BUT_REDUNDANT
  | STATUS_DELETED, STATUS_DELETED
  | STATUS_VETOED, STATUS_VETOED => true
  | _, _ => false
  end.

End CC.
Export CC.

Record FileImportStatus : Type := mkFileImportStatus {
  status : status_code;
  hash : option bytes;
  mime : option Z;
  note : string
}.

Definition AlreadyInDB (self : FileImportStatus) : bool :=
  CC.eqb (status self) STATUS_SUCCESSFUL_BUT_REDUNDANT.

Definition Duplicate (self : FileImportStatus) : FileImportStatus :=
  mkFileImportStatus (status self) (hash self) (mime self) (note self).

Definition ShouldImport
    (self : FileImportStatus) (file_import_options : FileImportOptions) : bool :=
  if CC.eqb (status self) STATUS_UNKNOWN then true
  else if CC.eqb (status self) STATUS_DELETED
          && negb (ExcludesDeleted file_import_options) then true
  else false.

Definition STATICGetUnknownStatus : FileImportStatus :=
  mkFileImportStatus STATUS_UNKNOWN None None "".

(** In-place assignments to the attributes of a status object. *)
Definition set_status (c : status_code) (s : FileImportStatus) : FileImportStatus :=
  mkFileImportStatus c (hash s) (mime s) (note s).
Definition set_hash (h : option bytes) (s : FileImportStatus) : FileImportStatus :=
  mkFileImportStatus (status s) h (mime s) (note s).
Definition set_mime (m : option Z) (s : FileImportStatus) : FileImportStatus :=
  mkFileImportStatus (status s) (hash s) m (note s).
Definition set_note (n : string) (s : FileImportStatus) : FileImportStatus :=
  mkFileImportStatus (status s) (hash s) (mime s) n.

(** ** FileImportJob *)

(** [( size, mime, width, height, duration, num_frames, has_audio, num_words )] *)
Definition file_info : Type :=
  (Z * Z * option Z * option Z * option Z * option Z * bool * option Z)%type.

Record FileImportJob : Type := mkFileImportJob {
  _temp_path : string;
  _file_import_options : FileImportOptions;
  _pre_import_file_status : FileImportStatus;
  _post_import_file_status : FileImportStatus;
  _file_info : option file_info;
  _thumbnail_bytes : option bytes;
  _phashes : option (list bytes);
  _extra_hashes : option (bytes * bytes * bytes);
  _file_modified_timestamp : option Z
}.

Definition FileImportJob__init__
    (temp_path : string) (file_import_options : FileImportOptions) : FileImportJob :=
  {| _temp_path := temp_path;
     _file_import_options := file_import_options;
     _pre_import_file_status := STATICGetUnknownStatus;
     _post_import_file_status := STATICGetUnknownStatus;
     _file_info := None;
     _thumbnail_bytes := None;
     _phashes := None;
     _extra_hashes := None;
     _file_modified_timestamp := None |}.

Definition GetHash (self : FileImportJob) : option bytes :=
  hash (_pre_import_file_status self).

Definition GetMime (self : FileImportJob) : option Z :=
  mime (_pre_import_file_status self).

(** [HydrusData.ContentUpdate( HC.CONTENT_TYPE_FILES, HC.CONTENT_UPDATE_ARCHIVE, hashes )] *)
Inductive content_type : Type := CONTENT_TYPE_FILES.
Inductive content_action : Type := CONTENT_UPDATE_ARCHIVE.
Inductive service_key : Type := COMBINED_LOCAL_FILE_SERVICE_KEY.

Record ContentUpdate : Type := mkContentUpdate {
  data_type : content_type;
  action : content_action;
  hashes : list (option bytes)
}.

(** *** The calls a job makes to its collaborators *)

Inductive event : Type :=
| Call_status_hook (text : string)
| Call_ConvertToPNGIfBMP (path : string)
| Call_GetHashFromPath (path : string)
| Call_Read_hash_status (h : bytes)
| Call_GetFilePath (h : bytes) (m : Z)
| Call_GetMime (path : string)
| Call_IsDecompressionBomb (path : string)
| Call_GetFileInfo (path : string) (m : Z)
| Call_GenerateThumbnailBytes (path : string)
| Call_GenerateShapePerceptualHashes (path : string) (m : Z)
| Call_GetExtraHashesFromPath (path : string)
| Call_GetFileModifiedTimestamp (path : string)
| Call_AddFile (h : option bytes) (m : option Z) (path : string)
               (thumbnail_bytes : option bytes)
| Call_WriteSynchronous_import_file (job : FileImportJob)
| Call_Write_content_updates (key : service_key) (content_updates : list ContentUpdate).

(** What [GenerateThumbnailBytes] does: it returns the bytes or raises.  The
    caller catches every exception [e] there and uses only [str( e )]. *)
Inductive rendering : Type :=
| Rendered (thumbnail_bytes : bytes)
| RenderingRaised (str_e : string).

(** The collaborators, reached in the code through [HG.client_controller] and
    the [Hydrus*Handling] modules.  Every one is called at most once in a run
    of [DoWork], so its answer is a function of the arguments of that call. *)
Record Collaborators : Type := {
  ConvertToPNGIfBMP : string -> result unit;
  GetHashFromPath : string -> result bytes;
  Read_hash_status : bytes -> result FileImportStatus;
  GetFilePath : bytes -> Z -> result string;
  HydrusFileHandling_GetMime : string -> result Z;
  IsDecompressionBomb : string -> result bool;
  GetFileInfo : string -> Z -> result file_info;
  thumbnail_dimensions : Z * Z;
  GetThumbnailResolution : option Z * option Z -> Z * Z -> Z * Z;
  video_thumbnail_percentage_in : Z;
  GenerateThumbnailBytes :
    string -> Z * Z -> Z -> option Z -> option Z -> Z -> rendering;
  GenerateShapePerceptualHashes : string -> Z -> result (list bytes);
  GetExtraHashesFromPath : string -> result (bytes * bytes * bytes);
  GetFileModifiedTimestamp : string -> result Z;
  AddFile : option bytes -> option Z -> string -> option bytes -> result unit;
  WriteSynchronous_import_file : FileImportJob -> result FileImportStatus
}.

(** *** The monad of the job's methods: the job object, the record of the
    calls made so far, and exceptions.  Assignments made before an exception
    is raised stay made. *)

Record Machine : Type := mkMachine {
  job : FileImportJob;
  calls : list event
}.

Definition M (A : Type) : Type := Machine -> result A * Machine.

Definition ret {A : Type} (a : A) : M A := fun m => (Ok a, m).

Definition bind {A B : Type} (c : M A) (k : A -> M B) : M B :=
  fun m =>
    match c m with
    | (Ok a, m') => k a m'
    | (Raise e, m') => (Raise e, m')
    end.

Definition raise {A : Type} (e : exn) : M A := fun m => (Raise e, m).

Notation "x <- c ;; k" := (bind c (fun x => k))
  (at level 61, c at next level, right associativity).
Notation "c ;; k" := (bind c (fun _ => k))
  (at level 61, right associativity).

(** A call to a collaborator: it is recorded, then it returns or raises. *)
Definition call {A : Type} (e : event) (r : result A) : M A :=
  fun m => (r, mkMachine (job m) (calls m ++ [e])%list).

(** [try: body except <classes matched by handler>: handler] *)
Definition try_except {A : Type} (body : M A) (handler : exn -> option (M A)) : M A :=
  fun m =>
    match body m with
    | (Ok a, m') => (Ok a, m')
    | (Raise e, m') =>
      match handler e with
      | Some h => h m'
      | None => (Raise e, m')
      end
    end.

Definition gets {A : Type} (f : FileImportJob -> A) : M A :=
  fun m => (Ok (f (job m)), m).

Definition modify (f : FileImportJob -> FileImportJob) : M unit :=
  fun m => (Ok tt, mkMachine (f (job m)) (calls m)).

(** Assignments to the attributes of the job. *)
Definition set_pre_import_file_status (s : FileImportStatus) (j : FileImportJob) :=
  mkFileImportJob (_temp_path j) (_file_import_options j) s
    (_post_import_file_status j) (_file_info j) (_thumbnail_bytes j) (_phashes j)
    (_extra_hashes j) (_file_modified_timestamp j).
Definition set_post_import_file_status (s : FileImportStatus) (j : FileImportJob) :=
  mkFileImportJob (_temp_path j) (_file_import_options j) (_pre_import_file_status j)
    s (_file_info j) (_thumbnail_bytes j) (_phashes j)
    (_extra_hashes j) (_file_modified_timestamp j).
Definition set_file_info (i : file_info) (j : FileImportJob) :=
  mkFileImportJob (_temp_path j) (_file_import_options j) (_pre_import_file_status j)
    (_post_import_file_status j) (Some i) (_thumbnail_bytes j) (_phashes j)
    (_extra_hashes j) (_file_modified_timestamp j).
Definition set_thumbnail_bytes (b : bytes) (j : FileImportJob) :=
  mkFileImportJob (_temp_path j) (_file_import_options j) (_pre_import_file_status j)
    (_post_import_file_status j) (_file_info j) (Some b) (_phashes j)
    (_extra_hashes j) (_file_modified_timestamp j).
Definition set_phashes (p : list bytes) (j : FileImportJob) :=
  mkFileImportJob (_temp_path j) (_file_import_options j) (_pre_import_file_status j)
    (_post_import_file_status j) (_file_info j) (_thumbnail_bytes j) (Some p)
    (_extra_hashes j) (_file_modified_timestamp j).
Definition set_extra_hashes (x : bytes * bytes * bytes) (j : FileImportJob) :=
  mkFileImportJob (_temp_path j) (_file_import_options j) (_pre_import_file_status j)
    (_post_import_file_status j) (_file_info j) (_thumbnail_bytes j) (_phashes j)
    (Some x) (_file_modified_timestamp j).
Definition set_file_modified_timestamp (t : Z) (j : FileImportJob) :=
  mkFileImportJob (_temp_path j) (_file_import_options j) (_pre_import_file_status j)
    (_post_import_file_status j) (_file_info j) (_thumbnail_bytes j) (_phashes j)
    (_extra_hashes j) (Some t).

Definition lift {A : Type} (r : result A) : M A := fun m => (r, m).

(** [if status_hook is not None: status_hook( text )]; [status_hook] is
    [true] when a callback was supplied. *)
Definition call_status_hook (status_hook : bool) (text : string) : M unit :=
  if status_hook then call (Call_status_hook text) (Ok tt) else ret tt.

Section Job.

Variable HC : HydrusConstants.
Variable HD : HydrusData.
Variable W : Collaborators.

Definition missing_note : string :=
  "The client believed this file was already in the db, but it was truly missing! Import will go ahead, in an attempt to fix the situation.".

Definition CheckFileImportStatus (file_import_status : FileImportStatus)
  : M FileImportStatus :=
  if AlreadyInDB file_import_status then
    let hash := hash file_import_status in
    let mime := mime file_import_status in
    try_except
      (match hash, mime with
       | Some h, Some m =>
         call (Call_GetFilePath h m) (GetFilePath W h m) ;;
         ret file_import_status
       | _, _ => ret file_import_status
       end)
      (fun e =>
         match e with
         | FileMissingException _ =>
           Some (ret (mkFileImportStatus STATUS_UNKNOWN hash mime missing_note))
         | _ => None
         end)
  else ret file_import_status.

Definition CheckIsGoodToImport : M unit :=
  info <- gets _file_info ;;
  match info with
  | Some (size, mime, width, height, duration, num_frames, has_audio, num_words) =>
    file_import_options <- gets _file_import_options ;;
    lift (CheckFileIsValid HC HD file_import_options size mime width height)
  | None => raise UnpackError
  end.

Definition GeneratePreImportHashAndStatus (status_hook : bool) : M unit :=
  temp_path <- gets _temp_path ;;
  call (Call_ConvertToPNGIfBMP temp_path) (ConvertToPNGIfBMP W temp_path) ;;
  call_status_hook status_hook "calculating hash" ;;
  hash <- call (Call_GetHashFromPath temp_path) (GetHashFromPath W temp_path) ;;
  call_status_hook status_hook "checking for file status" ;;
  read <- call (Call_Read_hash_status hash) (Read_hash_status W hash) ;;
  modify (set_pre_import_file_status read) ;;
  (* just in case *)
  modify (fun j => set_pre_import_file_status
                     (set_hash (Some hash) (_pre_import_file_status j)) j) ;;
  pre <- gets _pre_import_file_status ;;
  checked <- CheckFileImportStatus pre ;;
  modify (set_pre_import_file_status checked).

Definition GenerateInfo (status_hook : bool) : M unit :=
  temp_path <- gets _temp_path ;;
  pre <- gets _pre_import_file_status ;;
  mime <- match mime pre with
          | None =>
            call_status_hook status_hook "generating filetype" ;;
            mime <- call (Call_GetMime temp_path)
                         (HydrusFileHandling_GetMime W temp_path) ;;
            modify (fun j => set_pre_import_file_status
                               (set_mime (Some mime) (_pre_import_file_status j)) j) ;;
            ret mime
          | Some mime => ret mime
          end ;;
  file_import_options <- gets _file_import_options ;;
  (if mime_in mime (DECOMPRESSION_BOMB_IMAGES HC)
      && negb (AllowsDecompressionBombs file_import_options)
   then
     is_bomb <- call (Call_IsDecompressionBomb temp_path)
                     (IsDecompressionBomb W temp_path) ;;
     if is_bomb : bool
     then raise (DecompressionBombException
                   "Image seems to be a Decompression Bomb!")
     else ret tt
   else ret tt) ;;
  call_status_hook status_hook "generating file metadata" ;;
  info <- call (Call_GetFileInfo temp_path mime) (GetFileInfo W temp_path mime) ;;
  modify (set_file_info info) ;;
  let '(size, mime, width, height, duration, num_frames, has_audio, num_words) :=
    info in
  (if mime_in mime (MIMES_WITH_THUMBNAILS HC) then
     call_status_hook status_hook "generating thumbnail" ;;
     let bounding_dimensions := thumbnail_dimensions W in
     let target_resolution :=
       GetThumbnailResolution W (width, height) bounding_dimensions in
     let percentage_in := video_thumbnail_percentage_in W in
     match GenerateThumbnailBytes W temp_path target_resolution mime duration
             num_frames percentage_in with
     | Rendered thumbnail_bytes =>
       call (Call_GenerateThumbnailBytes temp_path) (Ok tt) ;;
       modify (set_thumbnail_bytes thumbnail_bytes)
     | RenderingRaised str_e =>
       call (Call_GenerateThumbnailBytes temp_path)
            (Raise (DamagedOrUnusualFileException
                      ("Could not render a thumbnail: " ++ str_e)))
     end
   else ret tt) ;;
  (if mime_in mime (MIMES_WE_CAN_PHASH HC) then
     call_status_hook status_hook "generating similar files metadata" ;;
     phashes <- call (Call_GenerateShapePerceptualHashes temp_path mime)
                     (GenerateShapePerceptualHashes W temp_path mime) ;;
     modify (set_phashes phashes)
   else ret tt) ;;
  call_status_hook status_hook "generating additional hashes" ;;
  extra_hashes <- call (Call_GetExtraHashesFromPath temp_path)
                       (GetExtraHashesFromPath W temp_path) ;;
  modify (set_extra_hashes extra_hashes) ;;
  file_modified_timestamp <- call (Call_GetFileModifiedTimestamp temp_path)
                                  (GetFileModifiedTimestamp W temp_path) ;;
  modify (set_file_modified_timestamp file_modified_timestamp).

Definition PubsubContentUpdates : M unit :=
  post <- gets _post_import_file_status ;;
  file_import_options <- gets _file_import_options ;;
  if AlreadyInDB post && AutomaticallyArchives file_import_options then
    h <- gets GetHash ;;
    let hashes := [ h ] in
    call (Call_Write_content_updates COMBINED_LOCAL_FILE_SERVICE_KEY
            [ mkContentUpdate CONTENT_TYPE_FILES CONTENT_UPDATE_ARCHIVE hashes ])
         (Ok tt)
  else ret tt.

(** The [try] of [DoWork].  It leaves [ok_to_go] true, returned here as
    [None], or [ok_to_go] false and [not_ok_file_import_status] bound,
    returned as [Some not_ok_file_import_status]. *)
Definition check_or_veto : M (option FileImportStatus) :=
  try_except
    (CheckIsGoodToImport ;;
     ret None)
    (fun e =>
       match e with
       | FileSizeException str_e =>
         Some (pre <- gets _pre_import_file_status ;;
               let not_ok_file_import_status := Duplicate pre in
               let not_ok_file_import_status :=
                 set_status STATUS_VETOED not_ok_file_import_status in
               let not_ok_file_import_status :=
                 set_note str_e not_ok_file_import_status in
               ret (Some not_ok_file_import_status))
       | _ => None
       end).

(** The [if ok_to_go:] branch of [DoWork]. *)
Definition DoWork_commit (status_hook : bool) : M unit :=
  hash <- gets GetHash ;;
  mime <- gets GetMime ;;
  temp_path <- gets _temp_path ;;
  thumbnail_bytes <- gets _thumbnail_bytes ;;
  call_status_hook status_hook "copying file into file storage" ;;
  call (Call_AddFile hash mime temp_path thumbnail_bytes)
       (AddFile W hash mime temp_path thumbnail_bytes) ;;
  call_status_hook status_hook "importing to database" ;;
  self <- gets (fun j => j) ;;
  post <- call (Call_WriteSynchronous_import_file self)
               (WriteSynchronous_import_file W self) ;;
  modify (set_post_import_file_status post).

(** The branch of [DoWork] for a status that should be imported. *)
Definition DoWork_import (status_hook : bool) : M unit :=
  GenerateInfo status_hook ;;
  not_ok <- check_or_veto ;;
  match not_ok with
  | None => DoWork_commit status_hook
  | Some not_ok_file_import_status =>
    modify (set_post_import_file_status not_ok_file_import_status)
  end.

Definition DoWork (status_hook : bool) : M FileImportStatus :=
  GeneratePreImportHashAndStatus status_hook ;;
  pre <- gets _pre_import_file_status ;;
  file_import_options <- gets _file_import_options ;;
  (if ShouldImport pre file_import_options then
     DoWork_import status_hook
   else
     pre <- gets _pre_import_file_status ;;
     modify (set_post_import_file_status (Duplicate pre))) ;;
  PubsubContentUpdates ;;
  gets _post_import_file_status.

(** A job as its caller uses it: constructed, then run once. *)
Definition run_job (temp_path : string) (file_import_options : FileImportOptions)
    (status_hook : bool) : result FileImportStatus * Machine :=
  DoWork status_hook (mkMachine (FileImportJob__init__ temp_path file_import_options) []).

End Job.

(** The number of values of the tuple that the step of a version unpacks. *)
Definition unpacked_length (version : Z) : nat :=
  if version =? 1 then 4%nat
  else if version =? 2 then 7%nat
  else 3%nat.

(** ** Further methods of FileImportOptions *)

Section NetworkDownload.

Variable HC : HydrusConstants.
Variable HD : HydrusData.

Definition download_gif_message (error_prefix : string) (num_bytes max_gif_size : Z)
  : string :=
  error_prefix ++ ToHumanBytes HD num_bytes ++ " but the upper limit for gifs is "
    ++ ToHumanBytes HD max_gif_size ++ ".".

Definition download_max_message (error_prefix : string) (num_bytes max_size : Z)
  : string :=
  error_prefix ++ ToHumanBytes HD num_bytes ++ " but the upper limit is "
    ++ ToHumanBytes HD max_size ++ ".".

Definition download_min_message (error_prefix : string) (num_bytes min_size : Z)
  : string :=
  error_prefix ++ ToHumanBytes HD num_bytes ++ " but the lower limit is "
    ++ ToHumanBytes HD min_size ++ ".".

Definition CheckNetworkDownload
    (self : FileImportOptions) (possible_mime : option Z) (num_bytes : Z)
    (is_complete_file_size : bool)
  : result unit :=
  let error_prefix :=
    if is_complete_file_size
    then "Download was apparently "
    else "Download was at least " in
  let? _ :=
    match possible_mime with
    | Some possible_mime =>
      if possible_mime =? IMAGE_GIF HC then
        match _max_gif_size self with
        | Some max_gif_size =>
          if num_bytes >? max_gif_size
          then Raise (FileSizeException
                        (download_gif_message error_prefix num_bytes max_gif_size))
          else Ok tt
        | None => Ok tt
        end
      else Ok tt
    | None => Ok tt
    end in
  let? _ :=
    match _max_size self with
    | Some max_size =>
      if num_bytes >? max_size
      then Raise (FileSizeException
                    (download_max_message error_prefix num_bytes max_size))
      else Ok tt
    | None => Ok tt
    end in
  if is_complete_file_size then
    match _min_size self with
    | Some min_size =>
      if num_bytes <? min_size
      then Raise (FileSizeException
                    (download_min_message error_prefix num_bytes min_size))
      else Ok tt
    | None => Ok tt
    end
  else Ok tt.

End NetworkDownload.

(** The [error_prefix] of [CheckNetworkDownload]. *)
Definition download_prefix (is_complete_file_size : bool) : string :=
  if is_complete_file_size
  then "Download was apparently "
  else "Download was at least ".

Definition GetPresentationOptions (self : FileImportOptions) : bool * bool * bool :=
  ( _present_new_files self,
    _present_already_in_inbox_files self,
    _present_already_in_archive_files self ).

Definition GetPreImportOptions (self : FileImportOptions)
  : bool * bool * bool * bool * option Z * option Z * option Z
    * option (Z * Z) * option (Z * Z) :=
  ( _exclude_deleted self,
    _do_not_check_known_urls_before_importing self,
    _do_not_check_hashes_before_importing self,
    _allow_decompression_bombs self,
    _min_size self, _max_size self, _max_gif_size self,
    _min_resolution self, _max_resolution self ).

Definition SetPostImportOptions (self : FileImportOptions)
    (automatic_archive associate_primary_urls associate_source_urls : bool)
  : FileImportOptions :=
  mkFileImportOptions
    (_exclude_deleted self) (_do_not_check_known_urls_before_importing self)
    (_do_not_check_hashes_before_importing self) (_allow_decompression_bombs self)
    (_min_size self) (_max_size self) (_max_gif_size self)
    (_min_resolution self) (_max_resolution self)
    automatic_archive associate_primary_urls associate_source_urls
    (_present_new_files self) (_present_already_in_inbox_files self)
    (_present_already_in_archive_files self).

Definition SetPresentationOptions (self : FileImportOptions)
    (present_new_files present_already_in_inbox_files
       present_already_in_archive_files : bool)
  : FileImportOptions :=
  mkFileImportOptions
    (_exclude_deleted self) (_do_not_check_known_urls_before_importing self)
    (_do_not_check_hashes_before_importing self) (_allow_decompression_bombs self)
    (_min_size self) (_max_size self) (_max_gif_size self)
    (_min_resolution self) (_max_resolution self)
    (_automatic_archive self) (_associate_primary_urls self)
    (_associate_source_urls self)
    present_new_files present_already_in_inbox_files
    present_already_in_archive_files.

Definition SetPreImportOptions (self : FileImportOptions)
    (exclude_deleted do_not_check_known_urls_before_importing
       do_not_check_hashes_before_importing allow_decompression_bombs : bool)
    (min_size max_size max_gif_size : option Z)
    (min_resolution max_resolution : option (Z * Z))
  : FileImportOptions :=
  mkFileImportOptions
    exclude_deleted do_not_check_known_urls_before_importing
    do_not_check_hashes_before_importing allow_decompression_bombs
    min_size max_size max_gif_size min_resolution max_resolution
    (_automatic_archive self) (_associate_primary_urls self)
    (_associate_source_urls self)
    (_present_new_files self) (_present_already_in_inbox_files self)
    (_present_already_in_archive_files self).

Definition ShouldAssociatePrimaryURLs (self : FileImportOptions) : bool :=
  _associate_primary_urls self.

Definition ShouldAssociateSourceURLs (self : FileImportOptions) : bool :=
  _associate_source_urls self.

Definition DoNotCheckHashesBeforeImporting (self : FileImportOptions) : bool :=
  _do_not_check_hashes_before_importing self.

Definition DoNotCheckKnownURLsBeforeImporting (self : FileImportOptions) : bool :=
  _do_not_check_known_urls_before_importing self.

(** [separator.join( strings )] *)
Definition join (separator : string) (strings : list string) : string :=
  String.concat separator strings.

Section Summary.

Variable HD : HydrusData.

(** [HydrusData.ToHumanInt] and [os.linesep], which the modelled files take
    from elsewhere. *)
Variable ToHumanInt : Z -> string.
Variable linesep : string.

(** [statements.append( statement )] *)
Definition append (statement : string) (statements : list string) : list string :=
  (statements ++ [ statement ])%list.

(** [if condition: statements.append( statement )] *)
Definition append_if (condition : bool) (statement : string) (statements : list string)
  : list string :=
  if condition then append statement statements else statements.

(** The list [presentation_statements] of [GetSummary]. *)
Definition presentation_statements (self : FileImportOptions) : list string :=
  let presentation_statements := [] in
  let presentation_statements :=
    append_if (_present_new_files self) "new" presentation_statements in
  let presentation_statements :=
    append_if (_present_already_in_inbox_files self) "already in inbox"
      presentation_statements in
  let presentation_statements :=
    append_if (_present_already_in_archive_files self) "already in archive"
      presentation_statements in
  presentation_statements.

(** The statement that [GetSummary] appends last. *)
Definition presentation_statement (self : FileImportOptions) : string :=
  let presentation_statements := presentation_statements self in
  if (List.length presentation_statements =? 0)%nat then
    "not presenting any files"
  else if (List.length presentation_statements =? 3)%nat then
    "presenting all files"
  else
    "presenting " ++ join ", " presentation_statements ++ " files".

(** The list [statements] of [GetSummary] when it is joined. *)
Definition summary_statements (self : FileImportOptions) : list string :=
  let statements := [] in
  let statements :=
    append_if (_exclude_deleted self) "excluding previously deleted" statements in
  let statements :=
    append_if (negb (_allow_decompression_bombs self))
      "excluding decompression bombs" statements in
  let statements :=
    match _min_size self with
    | Some min_size => append ("excluding < " ++ ToHumanBytes HD min_size) statements
    | None => statements
    end in
  let statements :=
    match _max_size self with
    | Some max_size => append ("excluding > " ++ ToHumanBytes HD max_size) statements
    | None => statements
    end in
  let statements :=
    match _max_gif_size self with
    | Some max_gif_size =>
      append ("excluding gifs > " ++ ToHumanBytes HD max_gif_size) statements
    | None => statements
    end in
  let statements :=
    match _min_resolution self with
    | Some (width, height) =>
      append ("excluding < ( " ++ ToHumanInt width ++ " x " ++ ToHumanInt height
                ++ " )") statements
    | None => statements
    end in
  let statements :=
    match _max_resolution self with
    | Some (width, height) =>
      append ("excluding > ( " ++ ToHumanInt width ++ " x " ++ ToHumanInt height
                ++ " )") statements
    | None => statements
    end in
  let statements :=
    append_if (_automatic_archive self) "automatically archiving" statements in
  append (presentation_statement self) statements.

Definition GetSummary (self : FileImportOptions) : string :=
  let summary := join linesep (summary_statements self) in
  summary.

End Summary.

(** ** The validation rules one by one

    The five rules in the order the specification lists them.  Each gives the
    message of its violation, or [None] when the file passes it; the first
    violation in the list is the one raised. *)

Section ValidationRules.

Variable HC : HydrusConstants.
Variable HD : HydrusData.

Definition min_size_rule (self : FileImportOptions) (size : Z) : option string :=
  match _min_size self with
  | Some min_size =>
    if size <? min_size then Some (min_size_message HD size min_size) else None
  | None => None
  end.

Definition max_size_rule (self : FileImportOptions) (size : Z) : option string :=
  match _max_size self with
  | Some max_size =>
    if max_size <? size then Some (max_size_message HD size max_size) else None
  | None => None
  end.

Definition max_gif_size_rule (self : FileImportOptions) (size mime : Z)
  : option string :=
  match _max_gif_size self with
  | Some max_gif_size =>
    if (mime =? IMAGE_GIF HC) && (max_gif_size <? size)
    then Some (max_gif_size_message HD size max_gif_size)
    else None
  | None => None
  end.

Definition min_resolution_rule (self : FileImportOptions) (width height : option Z)
  : option string :=
  match _min_resolution self with
  | Some min_resolution =>
    if below width (fst min_resolution) || below height (snd min_resolution)
    then Some (min_resolution_message HD width height min_resolution)
    else None
  | None => None
  end.

Definition max_resolution_rule (self : FileImportOptions) (width height : option Z)
  : option string :=
  match _max_resolution self with
  | Some max_resolution =>
    if above width (fst max_resolution) || above height (snd max_resolution)
    then Some (max_resolution_message HD width height max_resolution)
    else None
  | None => None
  end.

Fixpoint first_failure (rules : list (option string)) : result unit :=
  match rules with
  | [] => Ok tt
  | Some message :: _ => Raise (FileSizeException message)
  | None :: later => first_failure later
  end.

Definition ordered_rules (self : FileImportOptions) (size mime : Z)
    (width height : option Z) : list (option string) :=
  [ min_size_rule self size;
    max_size_rule self size;
    max_gif_size_rule self size mime;
    min_resolution_rule self width height;
    max_resolution_rule self width height ].

End ValidationRules.

(** ** What a run calls

    The calls that extract metadata, the calls that commit the file, and the
    content updates published at the end. *)

Definition is_extraction (e : event) : bool :=
  match e with
  | Call_GetMime _ | Call_IsDecompressionBomb _ | Call_GetFileInfo _ _
  | Call_GenerateThumbnailBytes _ | Call_GenerateShapePerceptualHashes _ _
  | Call_GetExtraHashesFromPath _ | Call_GetFileModifiedTimestamp _ => true
  | _ => false
  end.

Definition is_commit (e : event) : bool :=
  match e with
  | Call_AddFile _ _ _ _ | Call_WriteSynchronous_import_file _ => true
  | _ => false
  end.

Definition is_content_update (e : event) : bool :=
  match e with
  | Call_Write_content_updates _ _ => true
  | _ => false
  end.

Definition is_lookup (e : event) : bool :=
  negb (is_extraction e || is_commit e || is_content_update e).

(** The archive content update for one identity. *)
Definition archive_update (h : option bytes) : event :=
  Call_Write_content_updates COMBINED_LOCAL_FILE_SERVICE_KEY
    [ mkContentUpdate CONTENT_TYPE_FILES CONTENT_UPDATE_ARCHIVE [ h ] ].

(** ** Example collaborators

    Concrete constants, printers and collaborators on which the pipeline can
    be run. *)

Module Example.

Definition JPEG : Z := 1.
Definition PNG : Z := 2.
Definition GIF : Z := 3.

Definition HC : HydrusConstants := {|
  IMAGE_GIF := GIF;
  DECOMPRESSION_BOMB_IMAGES := [ PNG ];
  MIMES_WITH_THUMBNAILS := [ JPEG; PNG; GIF ];
  MIMES_WE_CAN_PHASH := [ JPEG; PNG ]
|}.

Definition decimal (z : Z) : string := NilZero.string_of_int (Z.to_int z).

Definition dimension (d : option Z) : string :=
  match d with
  | Some z => decimal z
  | None => "None"
  end.

Definition HD : HydrusData := {|
  ToHumanBytes := fun z => decimal z ++ "B";
  ConvertResolutionToPrettyString :=
    fun r => dimension (fst r) ++ "x" ++ dimension (snd r)
|}.

Definition digest : bytes := [ Byte.x2a; Byte.x07 ].

(** Collaborators that answer a lookup with [found], the store probe with
    [probe], the bomb probe with [bomb], and describe the file as [info];
    the write port commits it as new. *)
Definition W (found : FileImportStatus) (probe : result string) (bomb : bool)
    (info : file_info) : Collaborators := {|
  ConvertToPNGIfBMP := fun _ => Ok tt;
  GetHashFromPath := fun _ => Ok digest;
  Read_hash_status := fun _ => Ok found;
  GetFilePath := fun _ _ => probe;
  HydrusFileHandling_GetMime := fun _ => Ok (snd (fst (fst (fst (fst (fst (fst info)))))));
  IsDecompressionBomb := fun _ => Ok bomb;
  GetFileInfo := fun _ _ => Ok info;
  thumbnail_dimensions := (150, 125);
  GetThumbnailResolution := fun _ bounding => bounding;
  video_thumbnail_percentage_in := 35;
  GenerateThumbnailBytes := fun _ _ _ _ _ _ => Rendered [ Byte.x01 ];
  GenerateShapePerceptualHashes := fun _ _ => Ok [ [ Byte.x02 ] ];
  GetExtraHashesFromPath := fun _ => Ok ([ Byte.x03 ], [ Byte.x04 ], [ Byte.x05 ]);
  GetFileModifiedTimestamp := fun _ => Ok 1600000000;
  AddFile := fun _ _ _ _ => Ok tt;
  WriteSynchronous_import_file :=
    fun j => Ok (mkFileImportStatus STATUS_SUCCESSFUL_AND_NEW (GetHash j) (GetMime j) "")
|}.

Definition info (size mime : Z) : file_info :=
  (size, mime, Some 64, Some 48, None, None, false, None).

Definition unknown : FileImportStatus :=
  mkFileImportStatus STATUS_UNKNOWN None None "".

Definition present : FileImportStatus :=
  mkFileImportStatus STATUS_SUCCESSFUL_BUT_REDUNDANT (Some digest) (Some JPEG) "".

Definition deleted : FileImportStatus :=
  mkFileImportStatus STATUS_DELETED (Some digest) (Some JPEG) "".

Definition missing : result string := Raise (FileMissingException "no file").

Definition with_max_size (max_size : Z) : FileImportOptions :=
  mkFileImportOptions true false false true None (Some max_size) None None None
    false true true true true true.

Definition no_bombs : FileImportOptions :=
  mkFileImportOptions true false false false None None None None None
    false true true true true true.

Definition archiving : FileImportOptions :=
  mkFileImportOptions true false false true None None None None None
    true true true true true true.

(** The version-1 tuple ( autoArchive, excludeDeleted, minSize, minResolution ). *)
Definition v1 : pyval :=
  PyTuple [ PyBool true; PyBool true; PyInt 100; PyTuple [ PyInt 10; PyInt 10 ] ].

Definition v5 : pyval := _GetSerialisableInfo FileImportOptions__init__.

(** The options that the version-1 example migrates to. *)
Definition migrated : FileImportOptions := {|
  _exclude_deleted := true;
  _do_not_check_known_urls_before_importing := false;
  _do_not_check_hashes_before_importing := false;
  _allow_decompression_bombs := true;
  _min_size := Some 100;
  _max_size := None;
  _max_gif_size := Some (32 * 1048576);
  _min_resolution := Some (10, 10);
  _max_resolution := None;
  _automatic_archive := true;
  _associate_primary_urls := true;
  _associate_source_urls := true;
  _present_new_files := true;
  _present_already_in_inbox_files := false;
  _present_already_in_archive_files := false
|}.

End Example.

(** The machine after one recorded call. *)
Definition after_call (e : event) (m : Machine) : Machine :=
  mkMachine (job m) (calls m ++ [ e ])%list.

(** The calls that a run adds to the record all satisfy [P]. *)
Definition extends_by (P : event -> bool) (m m' : Machine) : Prop :=
  exists added, calls m' = (calls m ++ added)%list /\ forallb P added = true.

(** A computation [frames R P] when, whatever it returns or raises, the job
    it leaves is related by [R] to the job it started from and every call it
    made satisfies [P]. *)
Definition frames {A : Type} (R : FileImportJob -> FileImportJob -> Prop)
    (P : event -> bool) (c : M A) : Prop :=
  forall m r m', c m = (r, m') -> R (job m) (job m') /\ extends_by P m m'.

(** The path and the options of a job stay what they are. *)
Definition same_task (j j' : FileImportJob) : Prop :=
  _temp_path j' = _temp_path j /\
  _file_import_options j' = _file_import_options j.

(** ... and so does the identity, once it is computed. *)
Definition same_identity (j j' : FileImportJob) : Prop :=
  same_task j j' /\ GetHash j' = GetHash j.

Definition no_content_update (e : event) : bool := negb (is_content_update e).

Definition no_extraction_or_commit (e : event) : bool :=
  negb (is_extraction e || is_commit e).

Definition no_commit_or_update (e : event) : bool :=
  negb (is_commit e || is_content_update e).

(** The calls of a status hook that may be absent. *)
Definition hook_calls (status_hook : bool) (text : string) : list event :=
  if status_hook then [ Call_status_hook text ] else [].

(** The job keeps its path, its options and its file info. *)
Definition same_info (j j' : FileImportJob) : Prop :=
  same_task j j' /\ _file_info j' = _file_info j.

(** A call that is no metadata extraction. *)
Definition no_extraction (e : event) : bool := negb (is_extraction e).

(** The file info of the job passed [CheckFileIsValid] under its options. *)
Definition validated (HC : HydrusConstants) (HD : HydrusData) (j : FileImportJob)
  : Prop :=
  exists size info_mime width height duration num_frames has_audio num_words,
    _file_info j
    = Some (size, info_mime, width, height, duration, num_frames, has_audio,
            num_words) /\
    CheckFileIsValid HC HD (_file_import_options j) size info_mime width height
    = Ok tt.

(** The call of the media-type sniffer. *)
Definition is_sniff (e : event) : bool :=
  match e with
  | Call_GetMime _ => true
  | _ => false
  end.

(** The call of the decompression-bomb probe. *)
Definition is_bomb_probe (e : event) : bool :=
  match e with
  | Call_IsDecompressionBomb _ => true
  | _ => false
  end.

(** The call of the status hook. *)
Definition is_hook (e : event) : bool :=
  match e with
  | Call_status_hook _ => true
  | _ => false
  end.

(** What a run leaves apart from the calls of the status hook: the job and
    the calls to the collaborators. *)
Definition observable (m : Machine) : FileImportJob * list event :=
  (job m, filter (fun e => negb (is_hook e)) (calls m)).

(** Two computations agree when, from machines with the same observable
    part, they end the same way and leave the same observable part. *)
Definition agree {A : Type} (c c' : M A) : Prop :=
  forall m m',
    observable m = observable m' ->
    fst (c m) = fst (c' m') /\ observable (snd (c m)) = observable (snd (c' m')).

(** ** Further example collaborators *)

Module Faulty.

(** Collaborators whose store cannot add a file. *)
Definition failing_add (w : Collaborators) : Collaborators := {|
  ConvertToPNGIfBMP := ConvertToPNGIfBMP w;
  GetHashFromPath := GetHashFromPath w;
  Read_hash_status := Read_hash_status w;
  GetFilePath := GetFilePath w;
  HydrusFileHandling_GetMime := HydrusFileHandling_GetMime w;
  IsDecompressionBomb := IsDecompressionBomb w;
  GetFileInfo := GetFileInfo w;
  thumbnail_dimensions := thumbnail_dimensions w;
  GetThumbnailResolution := GetThumbnailResolution w;
  video_thumbnail_percentage_in := video_thumbnail_percentage_in w;
  GenerateThumbnailBytes := GenerateThumbnailBytes w;
  GenerateShapePerceptualHashes := GenerateShapePerceptualHashes w;
  GetExtraHashesFromPath := GetExtraHashesFromPath w;
  GetFileModifiedTimestamp := GetFileModifiedTimestamp w;
  AddFile := fun _ _ _ _ => Raise (Exception "disk full");
  WriteSynchronous_import_file := WriteSynchronous_import_file w
|}.

(** Collaborators whose thumbnail renderer raises. *)
Definition failing_renderer (w : Collaborators) : Collaborators := {|
  ConvertToPNGIfBMP := ConvertToPNGIfBMP w;
  GetHashFromPath := GetHashFromPath w;
  Read_hash_status := Read_hash_status w;
  GetFilePath := GetFilePath w;
  HydrusFileHandling_GetMime := HydrusFileHandling_GetMime w;
  IsDecompressionBomb := IsDecompressionBomb w;
  GetFileInfo := GetFileInfo w;
  thumbnail_dimensions := thumbnail_dimensions w;
  GetThumbnailResolution := GetThumbnailResolution w;
  video_thumbnail_percentage_in := video_thumbnail_percentage_in w;
  GenerateThumbnailBytes := fun _ _ _ _ _ _ => RenderingRaised "truncated file";
  GenerateShapePerceptualHashes := GenerateShapePerceptualHashes w;
  GetExtraHashesFromPath := GetExtraHashesFromPath w;
  GetFileModifiedTimestamp := GetFileModifiedTimestamp w;
  AddFile := AddFile w;
  WriteSynchronous_import_file := WriteSynchronous_import_file w
|}.

(** A new file of 600 bytes that the lookup does not know. *)
Definition new_file : Collaborators :=
  Example.W Example.unknown Example.missing false (Example.info 600 Example.JPEG).

(** A file that the lookup knows as present, and the store has it. *)
Definition known_file : Collaborators :=
  Example.W Example.present (Ok "store/2a07") false (Example.info 600 Example.JPEG).

(** A file that the lookup knows as present, and the store has lost it. *)
Definition lost_file : Collaborators :=
  Example.W Example.present Example.missing false (Example.info 600 Example.JPEG).

(** A file that the lookup knows as present, and the store cannot be read. *)
Definition unreadable_store : Collaborators :=
  Example.W Example.present (Raise (Exception "permission denied")) false
    (Example.info 600 Example.JPEG).

(** A job on the file "in.jpg" before it is run. *)
Definition fresh (file_import_options : FileImportOptions) : Machine :=
  mkMachine (FileImportJob__init__ "in.jpg" file_import_options) [].

(** A file of known media type that was deleted before. *)
Definition deleted_file : Collaborators :=
  Example.W Example.deleted Example.missing false (Example.info 600 Example.JPEG).

(** A new PNG on which the decompression-bomb probe would be positive. *)
Definition new_bomb : Collaborators :=
  Example.W Example.unknown Example.missing true (Example.info 600 Example.PNG).

(** Options that import previously deleted files again. *)
Definition reimporting : FileImportOptions :=
  mkFileImportOptions false false false true None None None None None
    false true true true true true.

(** Options with a lower limit, an upper limit and a gif limit on the size. *)
Definition sized : FileImportOptions :=
  mkFileImportOptions true false false true (Some 100) (Some 500) (Some 300)
    None None false true true true true true.

End Faulty.

(** * Properties *)

(** ** Serialisation and migration of the options *)

(** C9. Loading the tuple that serialisation produces restores the options
    exactly: all fifteen fields come back, whatever the loading object held
    before. *)
Theorem C9_serialisation_round_trip :
  forall self other : FileImportOptions,
    _InitialiseFromSerialisableInfo other (_GetSerialisableInfo self) = Ok self.
Proof.
  intros [a b c d e f g h i j k l m n o] other.
  unfold _GetSerialisableInfo, _InitialiseFromSerialisableInfo; cbn.
  destruct e, f, g, h as [[? ?]|], i as [[? ?]|]; reflexivity.
Qed.

(** C2. The version-1 tuple (autoArchive=true, excludeDeleted=true,
    minSize=100, minResolution=(10,10)) goes through the four migration steps
    to version 5, and loading the result gives automaticArchive=true,
    excludeDeleted=true, minSize=100, minResolution=(10,10),
    allowDecompressionBombs=true, maxGifSize=32*1048576,
    associatePrimaryUrls=true, associateSourceUrls=true and the presentation
    flags (true, false, false). *)
Theorem C2_migration_of_version_1_example :
  exists i2 i3 i4 i5 options,
    _UpdateSerialisableInfo 1 Example.v1 = Ok (Some (2, i2)) /\
    _UpdateSerialisableInfo 2 i2 = Ok (Some (3, i3)) /\
    _UpdateSerialisableInfo 3 i3 = Ok (Some (4, i4)) /\
    _UpdateSerialisableInfo 4 i4 = Ok (Some (5, i5)) /\
    _InitialiseFromSerialisableInfo FileImportOptions__init__ i5 = Ok options /\
    _automatic_archive options = true /\
    _exclude_deleted options = true /\
    _min_size options = Some 100 /\
    _min_resolution options = Some (10, 10) /\
    _allow_decompression_bombs options = true /\
    _max_gif_size options = Some (32 * 1048576) /\
    _associate_primary_urls options = true /\
    _associate_source_urls options = true /\
    ( _present_new_files options,
      _present_already_in_inbox_files options,
      _present_already_in_archive_files options ) = (true, false, false) /\
    options = Example.migrated.
Proof.
  do 5 eexists.
  repeat (split; [ reflexivity | ]).
  reflexivity.
Qed.

(** The loop reaches the same version-5 tuple for the example. *)
Lemma UpdateToCurrentVersion_example :
  exists i5,
    UpdateToCurrentVersion 4 1 Example.v1 = Some (Ok (5, i5)) /\
    _InitialiseFromSerialisableInfo FileImportOptions__init__ i5 = Ok Example.migrated.
Proof. eexists; split; reflexivity. Qed.

(** A step that succeeds moves to the next version, from 1, 2, 3 or 4. *)
Lemma _UpdateSerialisableInfo_next :
  forall version info version' info',
    _UpdateSerialisableInfo version info = Ok (Some (version', info')) ->
    1 <= version <= 4 /\ version' = version + 1.
Proof.
  intros version info version' info' H.
  unfold _UpdateSerialisableInfo in H.
  destruct (version =? 1) eqn:E1; [ apply Z.eqb_eq in E1 | ].
  { assert (version' = 2); [ | lia ].
    repeat (match type of H with
            | context [match ?x with _ => _ end] => destruct x
            end; try discriminate).
    now inversion H. }
  destruct (version =? 2) eqn:E2; [ apply Z.eqb_eq in E2 | ].
  { assert (version' = 3); [ | lia ].
    repeat (match type of H with
            | context [match ?x with _ => _ end] => destruct x
            end; try discriminate).
    now inversion H. }
  destruct (version =? 3) eqn:E3; [ apply Z.eqb_eq in E3 | ].
  { assert (version' = 4); [ | lia ].
    repeat (match type of H with
            | context [match ?x with _ => _ end] => destruct x
            end; try discriminate).
    now inversion H. }
  destruct (version =? 4) eqn:E4; [ apply Z.eqb_eq in E4 | discriminate ].
  assert (version' = 5); [ | lia ].
  repeat (match type of H with
          | context [match ?x with _ => _ end] => destruct x
          end; try discriminate).
  now inversion H.
Qed.

(** The loop never runs out of fuel when given the number of versions left. *)
Lemma UpdateToCurrentVersion_total :
  forall fuel version info,
    (Z.to_nat (SERIALISABLE_VERSION - version) <= fuel)%nat ->
    exists r, UpdateToCurrentVersion fuel version info = Some r.
Proof.
  induction fuel as [| fuel IH]; intros version info Hfuel; cbn.
  - destruct (version <? SERIALISABLE_VERSION) eqn:E; [ | eauto ].
    apply Z.ltb_lt in E. unfold SERIALISABLE_VERSION in *. lia.
  - destruct (version <? SERIALISABLE_VERSION) eqn:E; [ | eauto ].
    destruct (_UpdateSerialisableInfo version info) as [[[version' info'] |] | e] eqn:Hstep;
      [ | eauto | eauto ].
    apply _UpdateSerialisableInfo_next in Hstep as [_ ->].
    apply IH. unfold SERIALISABLE_VERSION in *. lia.
Qed.

(** Whatever the loop returns is at the target version or beyond. *)
Lemma UpdateToCurrentVersion_reaches :
  forall fuel version info version' info',
    UpdateToCurrentVersion fuel version info = Some (Ok (version', info')) ->
    SERIALISABLE_VERSION <= version'.
Proof.
  induction fuel as [| fuel IH]; intros version info version' info'; cbn.
  - destruct (version <? SERIALISABLE_VERSION) eqn:E; [ discriminate | ].
    intros H; inversion H; subst. now apply Z.ltb_ge in E.
  - destruct (version <? SERIALISABLE_VERSION) eqn:E.
    + destruct (_UpdateSerialisableInfo version info) as [[[v i] |] | e];
        try discriminate.
      apply IH.
    + intros H; inversion H; subst. now apply Z.ltb_ge in E.
Qed.

Lemma UpdateToCurrentVersion_done :
  forall fuel version info,
    SERIALISABLE_VERSION <= version ->
    UpdateToCurrentVersion fuel version info = Some (Ok (version, info)).
Proof.
  intros fuel version info H.
  apply Z.ltb_ge in H.
  destruct fuel; cbn; now rewrite H.
Qed.

(** C8, as stated, at the serialised default options: the migration step has
    no branch for version 5 and returns [None] there, not the pair of version
    5 and the unchanged data. *)
Lemma C8_step_has_no_version_5_branch :
  _UpdateSerialisableInfo 5 Example.v5 = Ok None /\
  _UpdateSerialisableInfo 5 Example.v5 <> Ok (Some (5, Example.v5)).
Proof. split; [ reflexivity | discriminate ]. Qed.

(** C8, amended. The migration, that is the loop that applies the step while
    the version is below 5, leaves a version-5 instance as it is, because it
    does not call the step there (the step itself returns [None] at version
    5); and migrating what a migration returned changes nothing. *)
Theorem C8_migration_idempotent_at_target :
  (forall info, _UpdateSerialisableInfo 5 info = Ok None) /\
  (forall fuel info,
      UpdateToCurrentVersion fuel 5 info = Some (Ok (5, info))) /\
  (forall fuel version info version' info',
      UpdateToCurrentVersion fuel version info = Some (Ok (version', info')) ->
      forall fuel',
        UpdateToCurrentVersion fuel' version' info' = Some (Ok (version', info'))).
Proof.
  split; [ reflexivity | split ].
  - intros fuel info. now apply UpdateToCurrentVersion_done.
  - intros fuel version info version' info' H fuel'.
    apply UpdateToCurrentVersion_done.
    eapply UpdateToCurrentVersion_reaches; eassumption.
Qed.

Lemma C8_migration_idempotent_at_target_witness :
  exists i5,
    UpdateToCurrentVersion 4 1 Example.v1 = Some (Ok (5, i5)) /\
    UpdateToCurrentVersion 0 5 i5 = Some (Ok (5, i5)).
Proof.
  eexists. split.
  - reflexivity.
  - apply (proj2 (proj2 C8_migration_idempotent_at_target) 4%nat 1 Example.v1).
    reflexivity.
Defined.

(** ** Validation *)

Section ValidationProperties.

Variable HC : HydrusConstants.
Variable HD : HydrusData.

(** The code and the ordered list of rules raise the same violation. *)
Lemma CheckFileIsValid_in_order :
  forall self size mime width height,
    CheckFileIsValid HC HD self size mime width height
    = first_failure (ordered_rules HC HD self size mime width height).
Proof.
  intros self size mime width height.
  unfold CheckFileIsValid, ordered_rules, min_size_rule, max_size_rule,
    max_gif_size_rule, min_resolution_rule, max_resolution_rule.
  destruct (_min_size self) as [min_size |]; cbn.
  1: destruct (size <? min_size); cbn; [ reflexivity | ].
  all: destruct (_max_size self) as [max_size |]; cbn.
  all: try (rewrite Z.gtb_ltb; destruct (max_size <? size); cbn; [ reflexivity | ]).
  all: destruct (_max_gif_size self) as [max_gif_size |]; cbn.
  all: try rewrite Z.gtb_ltb.
  all: destruct (mime =? IMAGE_GIF HC); cbn.
  all: try (destruct (max_gif_size <? size); cbn; [ reflexivity | ]).
  all: destruct (_min_resolution self) as [[min_width min_height] |]; cbn.
  all: try (destruct (below width min_width || below height min_height); cbn;
            [ reflexivity | ]).
  all: destruct (_max_resolution self) as [[max_width max_height] |]; cbn.
  all: try (destruct (above width max_width || above height max_height); cbn).
  all: reflexivity.
Qed.

(** Every exception of [CheckFileIsValid] is a [FileSizeException]. *)
Lemma CheckFileIsValid_raises_FileSizeException :
  forall self size mime width height e,
    CheckFileIsValid HC HD self size mime width height = Raise e ->
    exists message, e = FileSizeException message.
Proof.
  intros self size mime width height e.
  rewrite CheckFileIsValid_in_order.
  generalize (ordered_rules HC HD self size mime width height).
  induction l as [| [message |] later IH]; cbn; intros H.
  - discriminate.
  - inversion H. eauto.
  - auto.
Qed.

(** A size message is never a resolution message. *)
Lemma size_message_not_resolution_message :
  forall size limit width height resolution,
    (min_size_message HD size limit
     <> min_resolution_message HD width height resolution) /\
    (min_size_message HD size limit
     <> max_resolution_message HD width height resolution).
Proof.
  intros; split; unfold min_size_message, min_resolution_message,
    max_resolution_message; cbn; intros H; discriminate H.
Qed.

(** C3. The checks run in the order min-size, max-size, gif cap,
    min-resolution, max-resolution and the first failure is the one raised;
    in particular a file that violates both the minimum size and the minimum
    resolution gets the violation that cites the size limits, which is not a
    resolution violation. *)
Theorem C3_validation_order :
  forall self size mime width height,
    CheckFileIsValid HC HD self size mime width height
    = first_failure (ordered_rules HC HD self size mime width height) /\
    forall min_size min_resolution,
      _min_size self = Some min_size ->
      size < min_size ->
      _min_resolution self = Some min_resolution ->
      below width (fst min_resolution) || below height (snd min_resolution) = true ->
      CheckFileIsValid HC HD self size mime width height
      = Raise (FileSizeException (min_size_message HD size min_size)) /\
      (forall w h r,
          min_size_message HD size min_size <> min_resolution_message HD w h r) /\
      (forall w h r,
          min_size_message HD size min_size <> max_resolution_message HD w h r).
Proof.
  intros self size mime width height.
  split; [ apply CheckFileIsValid_in_order | ].
  intros min_size min_resolution Hmin Hsize _ _.
  split; [ | split; intros w h r; apply size_message_not_resolution_message ].
  unfold CheckFileIsValid. rewrite Hmin.
  apply Z.ltb_lt in Hsize. now rewrite Hsize.
Qed.

End ValidationProperties.

Lemma C3_validation_order_witness :
  CheckFileIsValid Example.HC Example.HD Example.migrated 50 Example.JPEG (Some 5) (Some 48)
  = Raise (FileSizeException "File was 50B but the lower limit is 100B.").
Proof.
  apply (proj2 (C3_validation_order Example.HC Example.HD Example.migrated 50
                  Example.JPEG (Some 5) (Some 48)) 100 (10, 10)).
  - reflexivity.
  - lia.
  - reflexivity.
  - reflexivity.
Defined.

(** ** Status reconciliation *)

Lemma eqb_status_eq :
  forall a b, CC.eqb a b = true <-> a = b.
Proof. intros [] []; cbn; split; intros H; congruence. Qed.

Lemma AlreadyInDB_iff :
  forall s, AlreadyInDB s = true <-> status s = STATUS_SUCCESSFUL_BUT_REDUNDANT.
Proof. intros s. apply eqb_status_eq. Qed.

(** C4. For a status with code AlreadyPresent whose identity and media type
    are set: when the store probe reports the content missing, the reconciler
    returns a new status with code Unknown, the same identity and media type
    and a non-empty note; when the probe succeeds it returns the input.  When
    the identity or the media type is absent it returns the input without
    probing.  In each case the job is left as it was and nothing but the
    probe is called, so no write is made. *)
Theorem C4_reconciler_self_heals :
  forall (W : Collaborators) (s : FileImportStatus) (m : Machine),
    status s = STATUS_SUCCESSFUL_BUT_REDUNDANT ->
    (forall h t message,
        hash s = Some h -> mime s = Some t ->
        GetFilePath W h t = Raise (FileMissingException message) ->
        exists s',
          CheckFileImportStatus W s m = (Ok s', after_call (Call_GetFilePath h t) m) /\
          status s' = STATUS_UNKNOWN /\
          hash s' = hash s /\
          mime s' = mime s /\
          note s' <> "" /\
          is_lookup (Call_GetFilePath h t) = true) /\
    (forall h t path,
        hash s = Some h -> mime s = Some t ->
        GetFilePath W h t = Ok path ->
        CheckFileImportStatus W s m = (Ok s, after_call (Call_GetFilePath h t) m)) /\
    (hash s = None \/ mime s = None ->
     CheckFileImportStatus W s m = (Ok s, m)).
Proof.
  intros W s m Hcode.
  apply AlreadyInDB_iff in Hcode.
  unfold CheckFileImportStatus; rewrite Hcode.
  split; [ | split ].
  - intros h t message Hh Ht Hprobe.
    eexists. rewrite Hh, Ht.
    unfold try_except, bind, call. rewrite Hprobe. cbn.
    repeat split; try reflexivity. discriminate.
  - intros h t path Hh Ht Hprobe.
    rewrite Hh, Ht.
    unfold try_except, bind, call. rewrite Hprobe. reflexivity.
  - intros [Hh | Ht].
    + rewrite Hh. reflexivity.
    + rewrite Ht. destruct (hash s); reflexivity.
Qed.

Lemma C4_reconciler_self_heals_witness :
  (exists s',
      CheckFileImportStatus
        (Example.W Example.present Example.missing false (Example.info 600 Example.JPEG))
        Example.present
        (mkMachine (FileImportJob__init__ "in.jpg" FileImportOptions__init__) [])
      = (Ok s',
         mkMachine (FileImportJob__init__ "in.jpg" FileImportOptions__init__)
           [ Call_GetFilePath Example.digest Example.JPEG ]) /\
      status s' = STATUS_UNKNOWN /\
      hash s' = Some Example.digest /\
      mime s' = Some Example.JPEG /\
      note s' <> "") /\
  CheckFileImportStatus
    (Example.W Example.present (Ok "store/2a07") false (Example.info 600 Example.JPEG))
    Example.present
    (mkMachine (FileImportJob__init__ "in.jpg" FileImportOptions__init__) [])
  = (Ok Example.present,
     mkMachine (FileImportJob__init__ "in.jpg" FileImportOptions__init__)
       [ Call_GetFilePath Example.digest Example.JPEG ]) /\
  CheckFileImportStatus
    (Example.W Example.present Example.missing false (Example.info 600 Example.JPEG))
    (set_mime None Example.present)
    (mkMachine (FileImportJob__init__ "in.jpg" FileImportOptions__init__) [])
  = (Ok (set_mime None Example.present),
     mkMachine (FileImportJob__init__ "in.jpg" FileImportOptions__init__) []).
Proof.
  split; [ | split ].
  - destruct (proj1 (C4_reconciler_self_heals
                       (Example.W Example.present Example.missing false
                          (Example.info 600 Example.JPEG))
                       Example.present
                       (mkMachine (FileImportJob__init__ "in.jpg" FileImportOptions__init__)
                          [])
                       eq_refl)
                    Example.digest Example.JPEG "no file" eq_refl eq_refl eq_refl)
      as [s' [Hrun [Hcode [Hhash [Hmime [Hnote _]]]]]].
    exists s'. repeat split; assumption.
  - apply (proj1 (proj2 (C4_reconciler_self_heals
                           (Example.W Example.present (Ok "store/2a07") false
                              (Example.info 600 Example.JPEG))
                           Example.present
                           (mkMachine
                              (FileImportJob__init__ "in.jpg" FileImportOptions__init__) [])
                           eq_refl))
                 Example.digest Example.JPEG "store/2a07");
      reflexivity.
  - apply (proj2 (proj2 (C4_reconciler_self_heals
                           (Example.W Example.present Example.missing false
                              (Example.info 600 Example.JPEG))
                           (set_mime None Example.present)
                           (mkMachine
                              (FileImportJob__init__ "in.jpg" FileImportOptions__init__) [])
                           eq_refl))).
    right. reflexivity.
Defined.

(** C10. A status whose code is not AlreadyPresent is returned as it is,
    whatever its code, and the store is not probed: the machine, and so the
    record of calls, is unchanged. *)
Theorem C10_reconciler_ignores_other_codes :
  forall (W : Collaborators) (s : FileImportStatus) (m : Machine),
    status s <> STATUS_SUCCESSFUL_BUT_REDUNDANT ->
    CheckFileImportStatus W s m = (Ok s, m).
Proof.
  intros W s m Hcode.
  unfold CheckFileImportStatus.
  destruct (AlreadyInDB s) eqn:E; [ | reflexivity ].
  apply AlreadyInDB_iff in E. contradiction.
Qed.

Lemma C10_reconciler_ignores_other_codes_witness :
  CheckFileImportStatus
    (Example.W Example.deleted Example.missing false (Example.info 600 Example.JPEG))
    Example.deleted
    (mkMachine (FileImportJob__init__ "in.jpg" FileImportOptions__init__) [])
  = (Ok Example.deleted,
     mkMachine (FileImportJob__init__ "in.jpg" FileImportOptions__init__) []).
Proof.
  apply C10_reconciler_ignores_other_codes.
  cbn. discriminate.
Defined.

(** ** Running the monad *)

Lemma bind_Ok :
  forall {A B : Type} (c : M A) (k : A -> M B) m a m1,
    c m = (Ok a, m1) -> bind c k m = k a m1.
Proof. intros A B c k m a m1 H. unfold bind. now rewrite H. Qed.

Lemma bind_Raise :
  forall {A B : Type} (c : M A) (k : A -> M B) m e m1,
    c m = (Raise e, m1) -> bind c k m = (Raise e, m1).
Proof. intros A B c k m e m1 H. unfold bind. now rewrite H. Qed.

Lemma bind_inv :
  forall {A B : Type} (c : M A) (k : A -> M B) m r m',
    bind c k m = (r, m') ->
    (exists a m1, c m = (Ok a, m1) /\ k a m1 = (r, m')) \/
    (exists e, c m = (Raise e, m') /\ r = Raise e).
Proof.
  intros A B c k m r m' H. unfold bind in H.
  destruct (c m) as [[a | e] m1].
  - left. eauto.
  - right. inversion H; subst. eauto.
Qed.

Lemma bind_gets :
  forall {A B : Type} (f : FileImportJob -> A) (k : A -> M B) m,
    bind (gets f) k m = k (f (job m)) m.
Proof. reflexivity. Qed.

Lemma bind_modify :
  forall {B : Type} (f : FileImportJob -> FileImportJob) (k : unit -> M B) m,
    bind (modify f) k m = k tt (mkMachine (f (job m)) (calls m)).
Proof. reflexivity. Qed.

Lemma bind_ret :
  forall {A B : Type} (a : A) (k : A -> M B) m, bind (ret a) k m = k a m.
Proof. reflexivity. Qed.

Lemma bind_call_Ok :
  forall {A B : Type} (e : event) (a : A) (k : A -> M B) m,
    bind (call e (Ok a)) k m = k a (after_call e m).
Proof. reflexivity. Qed.

Lemma bind_call_Raise :
  forall {A B : Type} (e : event) (x : exn) (k : A -> M B) m,
    bind (call e (Raise x)) k m = (Raise x, after_call e m).
Proof. reflexivity. Qed.

Lemma bind_assoc :
  forall {A B C : Type} (c : M A) (k : A -> M B) (k' : B -> M C) m,
    bind (bind c k) k' m = bind c (fun a => bind (k a) k') m.
Proof.
  intros A B C c k k' m. unfold bind.
  destruct (c m) as [[a | e] m1]; reflexivity.
Qed.

(** ** Frames *)

Lemma extends_by_refl :
  forall P m, extends_by P m m.
Proof. intros P m. exists []. split; [ now rewrite app_nil_r | reflexivity ]. Qed.

Lemma extends_by_trans :
  forall P m1 m2 m3,
    extends_by P m1 m2 -> extends_by P m2 m3 -> extends_by P m1 m3.
Proof.
  intros P m1 m2 m3 [a [Ha Pa]] [b [Hb Pb]].
  exists (a ++ b)%list. split.
  - now rewrite Hb, Ha, app_assoc.
  - rewrite forallb_app, Pa, Pb. reflexivity.
Qed.

Lemma extends_by_weaken :
  forall (P Q : event -> bool) m m',
    (forall e, P e = true -> Q e = true) ->
    extends_by P m m' -> extends_by Q m m'.
Proof.
  intros P Q m m' HPQ [a [Ha Pa]]. exists a. split; [ assumption | ].
  rewrite forallb_forall in *. auto.
Qed.

Lemma extends_by_call :
  forall (P : event -> bool) e m, P e = true -> extends_by P m (after_call e m).
Proof. intros P e m H. exists [ e ]. cbn. now rewrite H. Qed.

Section Frames.

Variable R : FileImportJob -> FileImportJob -> Prop.
Variable P : event -> bool.
Hypothesis R_refl : forall j, R j j.
Hypothesis R_trans : forall j1 j2 j3, R j1 j2 -> R j2 j3 -> R j1 j3.

Lemma frames_ret : forall {A : Type} (a : A), frames R P (ret a).
Proof.
  intros A a m r m' H. inversion H; subst.
  split; [ apply R_refl | apply extends_by_refl ].
Qed.

Lemma frames_raise : forall {A : Type} (e : exn), frames R P (@raise A e).
Proof.
  intros A e m r m' H. inversion H; subst.
  split; [ apply R_refl | apply extends_by_refl ].
Qed.

Lemma frames_lift : forall {A : Type} (x : result A), frames R P (lift x).
Proof.
  intros A x m r m' H. inversion H; subst.
  split; [ apply R_refl | apply extends_by_refl ].
Qed.

Lemma frames_gets :
  forall {A : Type} (f : FileImportJob -> A), frames R P (gets f).
Proof.
  intros A f m r m' H. inversion H; subst.
  split; [ apply R_refl | apply extends_by_refl ].
Qed.

Lemma frames_modify :
  forall f : FileImportJob -> FileImportJob,
    (forall j, R j (f j)) -> frames R P (modify f).
Proof.
  intros f Hf m r m' H. inversion H; subst. cbn.
  split; [ apply Hf | ]. exists []. cbn. now rewrite app_nil_r.
Qed.

Lemma frames_call :
  forall {A : Type} (e : event) (x : result A),
    P e = true -> frames R P (call e x).
Proof.
  intros A e x He m r m' H. inversion H; subst. cbn.
  split; [ apply R_refl | now apply (extends_by_call P e m) ].
Qed.

Lemma frames_hook :
  forall status_hook text,
    P (Call_status_hook text) = true ->
    frames R P (call_status_hook status_hook text).
Proof.
  intros [|] text H; cbn.
  - now apply frames_call.
  - apply frames_ret.
Qed.

Lemma frames_bind :
  forall {A B : Type} (c : M A) (k : A -> M B),
    frames R P c -> (forall a, frames R P (k a)) -> frames R P (bind c k).
Proof.
  intros A B c k Hc Hk m r m' H.
  apply bind_inv in H as [[a [m1 [H1 H2]]] | [e [H1 ->]]].
  - destruct (Hc _ _ _ H1) as [R1 E1], (Hk a _ _ _ H2) as [R2 E2].
    split; [ eapply R_trans | eapply extends_by_trans ]; eassumption.
  - exact (Hc _ _ _ H1).
Qed.

Lemma frames_try_except :
  forall {A : Type} (body : M A) (handler : exn -> option (M A)),
    frames R P body ->
    (forall e h, handler e = Some h -> frames R P h) ->
    frames R P (try_except body handler).
Proof.
  intros A body handler Hb Hh m r m' H. unfold try_except in H.
  destruct (body m) as [[a | e] m1] eqn:E.
  - inversion H; subst. exact (Hb _ _ _ E).
  - destruct (handler e) as [h |] eqn:Eh.
    + destruct (Hb _ _ _ E) as [R1 E1], (Hh e h Eh _ _ _ H) as [R2 E2].
      split; [ eapply R_trans | eapply extends_by_trans ]; eassumption.
    + inversion H; subst. exact (Hb _ _ _ E).
Qed.

End Frames.

Lemma frames_weaken :
  forall {A : Type} (R R' : FileImportJob -> FileImportJob -> Prop)
         (P Q : event -> bool) (c : M A),
    (forall j j', R j j' -> R' j j') ->
    (forall e, P e = true -> Q e = true) ->
    frames R P c -> frames R' Q c.
Proof.
  intros A R R' P Q c HR HPQ Hc m r m' H.
  destruct (Hc _ _ _ H) as [H1 H2].
  split; [ auto | eapply extends_by_weaken; eassumption ].
Qed.

Lemma same_task_refl : forall j, same_task j j.
Proof. intros j. split; reflexivity. Qed.

Lemma same_task_trans :
  forall j1 j2 j3, same_task j1 j2 -> same_task j2 j3 -> same_task j1 j3.
Proof. intros j1 j2 j3 [a b] [c d]. split; congruence. Qed.

Lemma same_identity_refl : forall j, same_identity j j.
Proof. intros j. split; [ apply same_task_refl | reflexivity ]. Qed.

Lemma same_identity_trans :
  forall j1 j2 j3,
    same_identity j1 j2 -> same_identity j2 j3 -> same_identity j1 j3.
Proof.
  intros j1 j2 j3 [a b] [c d].
  split; [ eapply same_task_trans; eassumption | congruence ].
Qed.

Create HintDb frames.

#[local] Hint Resolve same_task_refl same_task_trans
  same_identity_refl same_identity_trans : frames.

(** One step of a frame proof: take the computation apart along its binds,
    branches and handlers; what is left are the conditions on the single
    assignments and calls. *)
Ltac frame_step :=
  lazymatch goal with
  | |- frames _ _ (bind _ _) => apply frames_bind; [ eauto with frames .. | | intro ]
  | |- frames _ _ (ret _) => apply frames_ret; eauto with frames
  | |- frames _ _ (raise _) => apply frames_raise; eauto with frames
  | |- frames _ _ (lift _) => apply frames_lift; eauto with frames
  | |- frames _ _ (gets _) => apply frames_gets; eauto with frames
  | |- frames _ _ (call_status_hook _ _) =>
    apply frames_hook; [ eauto with frames .. | reflexivity ]
  | |- frames _ _ (call _ _) => apply frames_call; [ eauto with frames .. | reflexivity ]
  | |- frames _ _ (modify _) =>
    apply frames_modify;
    [ eauto with frames .. | intro; repeat split; reflexivity ]
  | |- frames _ _ (try_except _ _) =>
    apply frames_try_except;
    [ eauto with frames ..
    | | let e := fresh "e" in
        let h := fresh "h" in
        let E := fresh "E" in
        intros e h E; destruct e; inversion E; subst; clear E ]
  | |- frames _ _ (if ?b then _ else _) => destruct b
  | |- frames _ _ (match ?x with _ => _ end) => destruct x
  | |- frames _ _ (let _ := _ in _) => cbv zeta
  end.

Ltac frame := repeat frame_step.

(** ** The stages of the job *)

Section Stages.

Variable HC : HydrusConstants.
Variable HD : HydrusData.
Variable W : Collaborators.

Lemma CheckFileImportStatus_frames :
  forall R s,
    (forall j, R j j) -> (forall j1 j2 j3, R j1 j2 -> R j2 j3 -> R j1 j3) ->
    frames R is_lookup (CheckFileImportStatus W s).
Proof.
  intros R s Hrefl Htrans. unfold CheckFileImportStatus.
  frame.
Qed.

(** Hashing and lookup call nothing but the hashing, the lookup and the
    store probe, and leave the path and the options alone. *)
Lemma GeneratePreImportHashAndStatus_frames :
  forall status_hook,
    frames same_task is_lookup (GeneratePreImportHashAndStatus W status_hook).
Proof.
  intros status_hook. unfold GeneratePreImportHashAndStatus.
  frame.
  apply CheckFileImportStatus_frames; eauto with frames.
Qed.

(** Metadata extraction commits and publishes nothing and keeps the
    identity. *)
Lemma GenerateInfo_frames :
  forall status_hook,
    frames same_identity no_commit_or_update (GenerateInfo HC W status_hook).
Proof.
  intros status_hook. unfold GenerateInfo.
  frame.
Qed.

Lemma check_or_veto_frames :
  frames same_identity no_content_update (check_or_veto HC HD).
Proof.
  unfold check_or_veto, CheckIsGoodToImport.
  frame.
Qed.

Lemma DoWork_commit_frames :
  forall status_hook,
    frames same_identity no_content_update (DoWork_commit W status_hook).
Proof.
  intros status_hook. unfold DoWork_commit.
  frame.
Qed.

Lemma DoWork_import_frames :
  forall status_hook,
    frames same_identity no_content_update (DoWork_import HC HD W status_hook).
Proof.
  intros status_hook. unfold DoWork_import.
  frame.
  - eapply frames_weaken; [ | | apply GenerateInfo_frames ]; auto.
    intros []; cbn; congruence.
  - apply check_or_veto_frames.
  - apply DoWork_commit_frames.
Qed.

End Stages.

(** ** The pipeline *)

Lemma bind_call :
  forall {A B : Type} (e : event) (x : result A) (k : A -> M B) m,
    bind (call e x) k m
    = match x with
      | Ok a => k a (after_call e m)
      | Raise y => (Raise y, after_call e m)
      end.
Proof. intros A B e [a | y] k m; reflexivity. Qed.

Lemma bind_hook :
  forall {B : Type} (status_hook : bool) (text : string) (k : unit -> M B) m,
    bind (call_status_hook status_hook text) k m
    = k tt (if status_hook then after_call (Call_status_hook text) m else m).
Proof. intros B [|] text k m; reflexivity. Qed.

Lemma Duplicate_eq : forall s, Duplicate s = s.
Proof. intros []; reflexivity. Qed.

Lemma no_update_filter :
  forall added,
    forallb no_content_update added = true ->
    filter is_content_update added = [].
Proof.
  induction added as [| e added IH]; cbn; intros H; [ reflexivity | ].
  apply andb_true_iff in H as [He Hl]. unfold no_content_update in He.
  apply negb_true_iff in He. rewrite He. auto.
Qed.

Lemma lookup_is_no_update :
  forall e, is_lookup e = true -> no_content_update e = true.
Proof. intros []; cbn; congruence. Qed.

Lemma lookup_is_no_extraction_or_commit :
  forall e, is_lookup e = true -> no_extraction_or_commit e = true.
Proof. intros []; cbn; congruence. Qed.

Section Pipeline.

Variable HC : HydrusConstants.
Variable HD : HydrusData.
Variable W : Collaborators.

Lemma PubsubContentUpdates_run :
  forall m,
    PubsubContentUpdates m
    = (Ok tt,
       if AlreadyInDB (_post_import_file_status (job m))
          && AutomaticallyArchives (_file_import_options (job m))
       then after_call (archive_update (GetHash (job m))) m
       else m).
Proof.
  intros m. unfold PubsubContentUpdates.
  rewrite !bind_gets.
  destruct (AlreadyInDB _ && AutomaticallyArchives _); reflexivity.
Qed.

(** The reconciler keeps the identity of the status it is given. *)
Lemma CheckFileImportStatus_hash :
  forall s m s' m',
    CheckFileImportStatus W s m = (Ok s', m') ->
    hash s' = hash s /\ job m' = job m.
Proof.
  intros s m s' m'. unfold CheckFileImportStatus.
  destruct (AlreadyInDB s); [ | intros H; inversion H; auto ].
  unfold try_except, bind, call, ret.
  destruct (hash s) as [h |] eqn:Eh, (mime s) as [t |]; cbn;
    try (intros H; inversion H; subst; now auto).
  destruct (GetFilePath W h t) as [path | []]; cbn;
    intros H; inversion H; subst; auto.
Qed.

(** After hashing and lookup the status carries the digest of the file. *)
Lemma GeneratePreImportHashAndStatus_identity :
  forall status_hook m0 m1,
    GeneratePreImportHashAndStatus W status_hook m0 = (Ok tt, m1) ->
    exists h,
      GetHashFromPath W (_temp_path (job m0)) = Ok h /\
      GetHash (job m1) = Some h.
Proof.
  intros status_hook m0 m1. unfold GeneratePreImportHashAndStatus.
  rewrite bind_gets, bind_call.
  destruct (ConvertToPNGIfBMP W _); [ | discriminate ].
  rewrite bind_hook, bind_call. cbn [job after_call].
  destruct (GetHashFromPath W _) as [h |]; [ | discriminate ].
  rewrite bind_hook, bind_call.
  destruct (Read_hash_status W h) as [found |]; [ | discriminate ].
  rewrite !bind_modify, bind_gets.
  intros H. apply bind_inv in H as [[checked [m [Hc Hm]]] | [e [_ He]]];
    [ | discriminate ].
  apply CheckFileImportStatus_hash in Hc as [Hh _].
  exists h. split; [ reflexivity | ].
  inversion Hm; subst. unfold GetHash. cbn in *. exact Hh.
Qed.

(** C5. When the pre-import status should not be imported, [DoWork]
    returns a duplicate of it and calls neither the metadata extraction, nor
    the store's add operation, nor the write port's import operation.  That
    is the case for PreviouslyDeleted under excludeDeleted, and always for
    AlreadyPresent and Vetoed. *)
Theorem C5_short_circuit :
  (forall s file_import_options,
      (status s = STATUS_DELETED ->
       ExcludesDeleted file_import_options = true ->
       ShouldImport s file_import_options = false) /\
      (status s = STATUS_SUCCESSFUL_BUT_REDUNDANT ->
       ShouldImport s file_import_options = false) /\
      (status s = STATUS_VETOED ->
       ShouldImport s file_import_options = false)) /\
  (forall status_hook m0 m1,
      GeneratePreImportHashAndStatus W status_hook m0 = (Ok tt, m1) ->
      ShouldImport (_pre_import_file_status (job m1))
                   (_file_import_options (job m1)) = false ->
      exists m2,
        DoWork HC HD W status_hook m0
        = (Ok (Duplicate (_pre_import_file_status (job m1))), m2) /\
        Duplicate (_pre_import_file_status (job m1))
        = _pre_import_file_status (job m1) /\
        _file_info (job m2) = _file_info (job m1) /\
        extends_by no_extraction_or_commit m0 m2).
Proof.
  split.
  - intros s o. unfold ShouldImport.
    repeat split; intros ->; cbn; try reflexivity.
    intros ->. reflexivity.
  - intros status_hook m0 m1 H1 H2.
    unfold DoWork.
    rewrite (bind_Ok _ _ _ _ _ H1), !bind_gets, H2.
    rewrite bind_assoc, bind_gets, bind_modify.
    rewrite (bind_Ok _ _ _ _ _ (PubsubContentUpdates_run _)).
    match goal with
    | |- exists _, gets _ ?m = _ /\ _ => exists m
    end.
    split; [ | split; [ | split ] ].
    + unfold gets. destruct (AlreadyInDB _ && _); reflexivity.
    + apply Duplicate_eq.
    + destruct (AlreadyInDB _ && _); reflexivity.
    + eapply extends_by_trans.
      * eapply extends_by_weaken;
          [ apply lookup_is_no_extraction_or_commit
          | apply (GeneratePreImportHashAndStatus_frames W _ _ _ _ H1) ].
      * destruct (AlreadyInDB _ && _).
        -- eapply extends_by_trans;
             [ | apply extends_by_call; reflexivity ].
           exists []. cbn. now rewrite app_nil_r.
        -- exists []. cbn. now rewrite app_nil_r.
Qed.

(** C1. On the import path, whatever [CheckFileIsValid] raises on the
    extracted file info is a size or resolution violation, it is caught in
    [DoWork], and [DoWork] returns normally the duplicate of the pre-import
    status with code Vetoed and the message of the violation as note; no
    exception reaches the caller.  With maxSize=500 the violation of a file
    of size 600 has the message built from the human forms of 600 and of
    500. *)
Theorem C1_violation_becomes_veto :
  (forall status_hook m0 m1 m2 size info_mime width height duration num_frames
          has_audio num_words e,
      GeneratePreImportHashAndStatus W status_hook m0 = (Ok tt, m1) ->
      ShouldImport (_pre_import_file_status (job m1))
                   (_file_import_options (job m1)) = true ->
      GenerateInfo HC W status_hook m1 = (Ok tt, m2) ->
      _file_info (job m2)
      = Some (size, info_mime, width, height, duration, num_frames, has_audio,
              num_words) ->
      CheckFileIsValid HC HD (_file_import_options (job m2)) size info_mime
        width height
      = Raise e ->
      exists message,
        e = FileSizeException message /\
        let pre := _pre_import_file_status (job m2) in
        let vetoed :=
          set_note message (set_status STATUS_VETOED (Duplicate pre)) in
        vetoed = mkFileImportStatus STATUS_VETOED (hash pre)
                   (mime pre) message /\
        DoWork HC HD W status_hook m0
        = (Ok vetoed,
           mkMachine (set_post_import_file_status vetoed (job m2)) (calls m2))) /\
  (forall self info_mime width height,
      _min_size self = None ->
      _max_size self = Some 500 ->
      CheckFileIsValid HC HD self 600 info_mime width height
      = Raise (FileSizeException
                 ("File was " ++ ToHumanBytes HD 600
                    ++ " but the upper limit is " ++ ToHumanBytes HD 500 ++ "."))).
Proof.
  split.
  - intros status_hook m0 m1 m2 size info_mime width height duration num_frames
      has_audio num_words e H1 H2 H3 H4 H5.
    destruct (CheckFileIsValid_raises_FileSizeException _ _ _ _ _ _ _ _ H5)
      as [message ->].
    exists message. split; [ reflexivity | ].
    split; [ reflexivity | ].
    unfold DoWork.
    rewrite (bind_Ok _ _ _ _ _ H1), !bind_gets, H2.
    unfold DoWork_import.
    rewrite !bind_assoc, (bind_Ok _ _ _ _ _ H3).
    assert (Hveto : check_or_veto HC HD m2
                    = (Ok (Some (set_note message
                                   (set_status STATUS_VETOED
                                      (Duplicate (_pre_import_file_status (job m2)))))),
                       m2)).
    { unfold check_or_veto, try_except, CheckIsGoodToImport.
      rewrite bind_assoc, bind_gets, H4, bind_assoc, bind_gets.
      unfold bind, lift. rewrite H5. reflexivity. }
    rewrite bind_assoc, (bind_Ok _ _ _ _ _ Hveto), bind_modify.
    rewrite (bind_Ok _ _ _ _ _ (PubsubContentUpdates_run _)).
    reflexivity.
  - intros self info_mime width height Hmin Hmax.
    unfold CheckFileIsValid. rewrite Hmin, Hmax. reflexivity.
Qed.

(** C6, amended. On the import path, when the detected media type is in the
    decompression-bomb-risk class, the options disallow decompression bombs
    and the probe is positive, [DoWork] raises a
    [DecompressionBombException]; nothing in [DoWork] catches it, so no
    status is returned, and nothing was committed or published. *)
Theorem C6_decompression_bomb_aborts :
  forall status_hook m0 m1 t,
    GeneratePreImportHashAndStatus W status_hook m0 = (Ok tt, m1) ->
    ShouldImport (_pre_import_file_status (job m1))
                 (_file_import_options (job m1)) = true ->
    (mime (_pre_import_file_status (job m1)) = Some t \/
     (mime (_pre_import_file_status (job m1)) = None /\
      HydrusFileHandling_GetMime W (_temp_path (job m1)) = Ok t)) ->
    mime_in t (DECOMPRESSION_BOMB_IMAGES HC) = true ->
    AllowsDecompressionBombs (_file_import_options (job m1)) = false ->
    IsDecompressionBomb W (_temp_path (job m1)) = Ok true ->
    exists m',
      DoWork HC HD W status_hook m0
      = (Raise (DecompressionBombException
                  "Image seems to be a Decompression Bomb!"), m') /\
      extends_by no_commit_or_update m0 m'.
Proof.
  intros status_hook m0 m1 t H1 H2 Hmime Hclass Hallow Hbomb.
  assert (Hinfo : exists m',
             GenerateInfo HC W status_hook m1
             = (Raise (DecompressionBombException
                         "Image seems to be a Decompression Bomb!"), m')).
  { unfold GenerateInfo. rewrite !bind_gets.
    destruct Hmime as [Ht | [Ht Hsniff]]; rewrite Ht.
    - rewrite bind_ret, bind_gets, Hclass, Hallow. cbn [negb andb].
      rewrite bind_assoc, bind_call, Hbomb. eexists. reflexivity.
    - rewrite !bind_assoc, bind_hook, bind_assoc, bind_call, Hsniff.
      rewrite bind_assoc, bind_modify, bind_ret, bind_gets.
      cbn [job after_call set_pre_import_file_status _file_import_options].
      replace (_file_import_options
                 (job (if status_hook
                       then after_call (Call_status_hook "generating filetype") m1
                       else m1)))
        with (_file_import_options (job m1)) by (destruct status_hook; reflexivity).
      replace (_temp_path
                 (job (if status_hook
                       then after_call (Call_status_hook "generating filetype") m1
                       else m1)))
        with (_temp_path (job m1)) by (destruct status_hook; reflexivity).
      rewrite Hclass, Hallow. cbn [negb andb].
      rewrite bind_assoc, bind_call, Hbomb. eexists. reflexivity. }
  destruct Hinfo as [m' Hinfo]. exists m'. split.
  - unfold DoWork.
    rewrite (bind_Ok _ _ _ _ _ H1), !bind_gets, H2.
    unfold DoWork_import.
    rewrite !bind_assoc. apply bind_Raise. exact Hinfo.
  - eapply extends_by_trans.
    + eapply extends_by_weaken;
        [ | apply (GeneratePreImportHashAndStatus_frames W _ _ _ _ H1) ].
      intros []; cbn; congruence.
    + apply (GenerateInfo_frames HC W _ _ _ _ Hinfo).
Qed.

(** The stages before the publication publish nothing and keep the path,
    the options and, once computed, the identity. *)
Lemma DoWork_branch_frames :
  forall status_hook (b : bool),
    frames same_identity no_content_update
      (if b then DoWork_import HC HD W status_hook
       else pre <- gets _pre_import_file_status ;;
            modify (set_post_import_file_status (Duplicate pre))).
Proof.
  intros status_hook [|].
  - apply DoWork_import_frames.
  - frame.
Qed.

(** C7. Of the calls of a run of [DoWork] that returns a status, the
    content updates are exactly one archive update for the identity of the
    file when the returned status has code AlreadyPresent and the options
    have automaticArchive set, and none otherwise. *)
Theorem C7_archive_update_published :
  forall status_hook m0 final m',
    DoWork HC HD W status_hook m0 = (Ok final, m') ->
    exists added h,
      calls m' = (calls m0 ++ added)%list /\
      GetHashFromPath W (_temp_path (job m0)) = Ok h /\
      GetHash (job m') = Some h /\
      final = _post_import_file_status (job m') /\
      filter is_content_update added
      = (if AlreadyInDB final
            && AutomaticallyArchives (_file_import_options (job m0))
         then [ archive_update (Some h) ]
         else []) /\
      List.length (filter is_content_update added)
      = (if AlreadyInDB final
            && AutomaticallyArchives (_file_import_options (job m0))
         then 1%nat
         else 0%nat).
Proof.
  intros status_hook m0 final m' H.
  unfold DoWork in H.
  apply bind_inv in H as [[[] [m1 [H1 H]]] | [e [_ He]]]; [ | discriminate ].
  rewrite !bind_gets in H.
  apply bind_inv in H as [[[] [m2 [H2 H]]] | [e [_ He]]]; [ | discriminate ].
  rewrite (bind_Ok _ _ _ _ _ (PubsubContentUpdates_run _)) in H.
  destruct (GeneratePreImportHashAndStatus_frames W _ _ _ _ H1)
    as [[_ Hopt1] [added1 [Hc1 Hl1]]].
  destruct (GeneratePreImportHashAndStatus_identity _ _ _ H1) as [h [Hh Hh1]].
  destruct (DoWork_branch_frames _ _ _ _ _ H2)
    as [[[_ Hopt2] Hh2] [added2 [Hc2 Hl2]]].
  rewrite Hopt1 in Hopt2. rewrite Hh1 in Hh2.
  assert (Hn1 : filter is_content_update added1 = []).
  { apply no_update_filter. rewrite forallb_forall in *.
    intros e He. apply lookup_is_no_update. auto. }
  assert (Hn2 : filter is_content_update added2 = [])
    by now apply no_update_filter.
  unfold gets in H. rewrite Hopt2, Hh2 in H.
  destruct (AlreadyInDB (_post_import_file_status (job m2))
            && AutomaticallyArchives (_file_import_options (job m0))) eqn:Hcond;
    inversion H; subst final m'; clear H; cbn [job calls after_call];
    rewrite Hcond.
  - exists (added1 ++ added2 ++ [ archive_update (Some h) ])%list, h.
    repeat split; try assumption.
    + now rewrite Hc2, Hc1, <- !app_assoc.
    + now rewrite !filter_app, Hn1, Hn2.
    + now rewrite !filter_app, Hn1, Hn2.
  - exists (added1 ++ added2)%list, h.
    repeat split; try assumption.
    + now rewrite Hc2, Hc1, <- !app_assoc.
    + now rewrite !filter_app, Hn1, Hn2.
    + now rewrite !filter_app, Hn1, Hn2.
Qed.

End Pipeline.

(** ** The pipeline on the example collaborators *)

(** The value of a closed term, computed. *)
Ltac computed c := let v := eval vm_compute in c in exact v.

Lemma C5_short_circuit_witness :
  ShouldImport Example.deleted FileImportOptions__init__ = false /\
  ShouldImport Example.present FileImportOptions__init__ = false /\
  ShouldImport (set_status STATUS_VETOED Example.unknown) FileImportOptions__init__
  = false /\
  exists m2,
    DoWork Example.HC Example.HD
      (Example.W Example.deleted (Ok "store/2a07") false (Example.info 600 Example.JPEG))
      false
      (mkMachine (FileImportJob__init__ "in.jpg" FileImportOptions__init__) [])
    = (Ok Example.deleted, m2) /\
    extends_by no_extraction_or_commit
      (mkMachine (FileImportJob__init__ "in.jpg" FileImportOptions__init__) []) m2.
Proof.
  pose (W := Example.W Example.deleted (Ok "store/2a07") false
               (Example.info 600 Example.JPEG)).
  pose (m0 := mkMachine (FileImportJob__init__ "in.jpg" FileImportOptions__init__) []).
  pose (m1 := ltac:(computed
                      (snd (GeneratePreImportHashAndStatus
                              (Example.W Example.deleted (Ok "store/2a07") false
                                 (Example.info 600 Example.JPEG))
                              false
                              (mkMachine
                                 (FileImportJob__init__ "in.jpg" FileImportOptions__init__)
                                 []))))).
  pose proof (C5_short_circuit Example.HC Example.HD W) as [Hcodes Hrun].
  split; [ | split; [ | split ] ].
  - apply (proj1 (Hcodes Example.deleted FileImportOptions__init__)); reflexivity.
  - apply (proj1 (proj2 (Hcodes Example.present FileImportOptions__init__)));
      reflexivity.
  - apply (proj2 (proj2 (Hcodes (set_status STATUS_VETOED Example.unknown)
                           FileImportOptions__init__)));
      reflexivity.
  - destruct (Hrun false m0 m1) as [m2 [Hdone [_ [_ Hcalls]]]].
    + reflexivity.
    + reflexivity.
    + exists m2. split; [ exact Hdone | exact Hcalls ].
Defined.

Lemma C1_violation_becomes_veto_witness :
  fst (run_job Example.HC Example.HD
         (Example.W Example.unknown Example.missing false (Example.info 600 Example.JPEG))
         "in.jpg" (Example.with_max_size 500) false)
  = Ok (mkFileImportStatus STATUS_VETOED (Some Example.digest) (Some Example.JPEG)
          "File was 600B but the upper limit is 500B.") /\
  CheckFileIsValid Example.HC Example.HD (Example.with_max_size 500) 600 Example.GIF
    None None
  = Raise (FileSizeException "File was 600B but the upper limit is 500B.").
Proof.
  pose (W := Example.W Example.unknown Example.missing false
               (Example.info 600 Example.JPEG)).
  pose (m0 := mkMachine (FileImportJob__init__ "in.jpg" (Example.with_max_size 500)) []).
  pose (m1 := ltac:(computed
                      (snd (GeneratePreImportHashAndStatus
                              (Example.W Example.unknown Example.missing false
                                 (Example.info 600 Example.JPEG))
                              false
                              (mkMachine
                                 (FileImportJob__init__ "in.jpg"
                                    (Example.with_max_size 500)) []))))).
  pose (m2 := ltac:(computed
                      (snd (GenerateInfo Example.HC
                              (Example.W Example.unknown Example.missing false
                                 (Example.info 600 Example.JPEG))
                              false
                              (snd (GeneratePreImportHashAndStatus
                                      (Example.W Example.unknown Example.missing false
                                         (Example.info 600 Example.JPEG))
                                      false
                                      (mkMachine
                                         (FileImportJob__init__ "in.jpg"
                                            (Example.with_max_size 500)) []))))))).
  split.
  - unfold run_job.
    destruct (proj1 (C1_violation_becomes_veto Example.HC Example.HD W)
                    false m0 m1 m2 600 Example.JPEG (Some 64) (Some 48) None None
                    false None
                    (FileSizeException "File was 600B but the upper limit is 500B."))
      as [message [Hmessage [_ Hrun]]].
    + reflexivity.
    + reflexivity.
    + reflexivity.
    + reflexivity.
    + reflexivity.
    + injection Hmessage as <-.
      change (fst (DoWork Example.HC Example.HD W false m0) = 
              Ok (mkFileImportStatus STATUS_VETOED (Some Example.digest)
                    (Some Example.JPEG) "File was 600B but the upper limit is 500B.")).
      rewrite Hrun. reflexivity.
  - apply (proj2 (C1_violation_becomes_veto Example.HC Example.HD W)
                 (Example.with_max_size 500) Example.GIF None None).
    + reflexivity.
    + reflexivity.
Defined.

(** C6, as stated, on the example: the options disallow decompression bombs,
    the file is a PNG, which is in the risk class, and the probe is positive;
    the exception that leaves [DoWork] is a [DecompressionBombException], not
    a [DamagedOrUnusualFileException], the class the code raises for a
    thumbnail that cannot be rendered. *)
Lemma C6_raises_DecompressionBombException :
  mime_in Example.PNG (DECOMPRESSION_BOMB_IMAGES Example.HC) = true /\
  AllowsDecompressionBombs Example.no_bombs = false /\
  IsDecompressionBomb
    (Example.W Example.unknown Example.missing true (Example.info 600 Example.PNG))
    "in.png" = Ok true /\
  fst (run_job Example.HC Example.HD
         (Example.W Example.unknown Example.missing true (Example.info 600 Example.PNG))
         "in.png" Example.no_bombs false)
  = Raise (DecompressionBombException "Image seems to be a Decompression Bomb!") /\
  ~ (exists message,
        fst (run_job Example.HC Example.HD
               (Example.W Example.unknown Example.missing true
                  (Example.info 600 Example.PNG))
               "in.png" Example.no_bombs false)
        = Raise (DamagedOrUnusualFileException message)).
Proof.
  assert (Hrun : fst (run_job Example.HC Example.HD
                        (Example.W Example.unknown Example.missing true
                           (Example.info 600 Example.PNG))
                        "in.png" Example.no_bombs false)
                 = Raise (DecompressionBombException
                            "Image seems to be a Decompression Bomb!"))
    by reflexivity.
  split; [ reflexivity | ].
  split; [ reflexivity | ].
  split; [ reflexivity | ].
  split; [ exact Hrun | ].
  intros [message H]. rewrite Hrun in H. discriminate H.
Qed.

Lemma C6_decompression_bomb_aborts_witness :
  exists m',
    run_job Example.HC Example.HD
      (Example.W Example.unknown Example.missing true (Example.info 600 Example.PNG))
      "in.png" Example.no_bombs true
    = (Raise (DecompressionBombException "Image seems to be a Decompression Bomb!"), m').
Proof.
  pose (W := Example.W Example.unknown Example.missing true
               (Example.info 600 Example.PNG)).
  pose (m0 := mkMachine (FileImportJob__init__ "in.png" Example.no_bombs) []).
  pose (m1 := ltac:(computed
                      (snd (GeneratePreImportHashAndStatus
                              (Example.W Example.unknown Example.missing true
                                 (Example.info 600 Example.PNG))
                              true
                              (mkMachine
                                 (FileImportJob__init__ "in.png" Example.no_bombs)
                                 []))))).
  unfold run_job.
  destruct (C6_decompression_bomb_aborts Example.HC Example.HD W true m0 m1 Example.PNG)
    as [m' [Hrun _]].
  - reflexivity.
  - reflexivity.
  - right. split; reflexivity.
  - reflexivity.
  - reflexivity.
  - reflexivity.
  - exists m'. exact Hrun.
Defined.

Lemma C7_archive_update_published_witness :
  exists added,
    calls (snd (run_job Example.HC Example.HD
                  (Example.W Example.present (Ok "store/2a07") false
                     (Example.info 600 Example.JPEG))
                  "in.jpg" Example.archiving false))
    = added /\
    filter is_content_update added = [ archive_update (Some Example.digest) ].
Proof.
  pose (W := Example.W Example.present (Ok "store/2a07") false
               (Example.info 600 Example.JPEG)).
  pose (m0 := mkMachine (FileImportJob__init__ "in.jpg" Example.archiving) []).
  pose (m' := ltac:(computed
                      (snd (run_job Example.HC Example.HD
                              (Example.W Example.present (Ok "store/2a07") false
                                 (Example.info 600 Example.JPEG))
                              "in.jpg" Example.archiving false)))).
  assert (Hrun : DoWork Example.HC Example.HD W false m0 = (Ok Example.present, m'))
    by reflexivity.
  destruct (C7_archive_update_published Example.HC Example.HD W false m0
              Example.present m' Hrun)
    as [added [h [Hcalls [Hh [_ [_ [Hfilter _]]]]]]].
  injection Hh as <-.
  exists added. split; [ | exact Hfilter ].
  unfold run_job. change (calls (snd (DoWork Example.HC Example.HD W false m0)) = added).
  rewrite Hrun. exact Hcalls.
Defined.

(** * Further properties of the options *)

(** ** The sizing guard for downloads *)

Lemma prefix_append :
  forall p s : string, String.prefix p (p ++ s) = true.
Proof.
  induction p as [| c p IH]; intros s; cbn.
  - destruct s; reflexivity.
  - destruct (Ascii.ascii_dec c c) as [_ | n]; [ apply IH | contradiction ].
Qed.

(** Case analysis on the comparisons of sizes in the goal and the
    hypotheses. *)
Ltac size_cases :=
  repeat match goal with
         | H : context [ ?a >? ?b ] |- _ => rewrite (Z.gtb_ltb a b) in H
         | |- context [ ?a >? ?b ] => rewrite (Z.gtb_ltb a b)
         | H : context [ ?a <? ?b ] |- _ =>
           destruct (Z.ltb_spec a b); cbn in H; try discriminate H
         | |- context [ ?a <? ?b ] => destruct (Z.ltb_spec a b); cbn
         | H : context [ ?a =? ?b ] |- _ =>
           destruct (Z.eqb_spec a b); cbn in H; try discriminate H
         | |- context [ ?a =? ?b ] => destruct (Z.eqb_spec a b); cbn
         end.

Section NetworkDownloadProperties.

Variable HC : HydrusConstants.
Variable HD : HydrusData.

(** X1. Whatever [CheckNetworkDownload] raises is a [FileSizeException]
    whose message starts with "Download was apparently " when the size is that
    of the complete file and with "Download was at least " when it is not. *)
Theorem X1_download_violation_prefix :
  forall self possible_mime num_bytes is_complete_file_size e,
    CheckNetworkDownload HC HD self possible_mime num_bytes is_complete_file_size
    = Raise e ->
    exists message,
      e = FileSizeException message /\
      String.prefix (download_prefix is_complete_file_size) message = true.
Proof.
  intros self possible_mime num_bytes is_complete_file_size e.
  unfold CheckNetworkDownload, download_gif_message, download_max_message,
    download_min_message.
  fold (download_prefix is_complete_file_size).
  generalize (download_prefix is_complete_file_size) as p. intros p.
  destruct possible_mime as [t |], (_max_gif_size self) as [g |],
    (_max_size self) as [x |], (_min_size self) as [n |],
    is_complete_file_size; cbn;
    repeat match goal with
           | |- context [ if ?b then _ else _ ] => destruct b; cbn
           end;
    intros H; inversion H; subst;
    eexists; (split; [ reflexivity | apply prefix_append ]).
Qed.

(** X2. Once the guard rejects a partial download, it rejects every larger
    size of that download too, complete or not. *)
Theorem X2_download_rejection_is_monotone :
  forall self possible_mime num_bytes e,
    CheckNetworkDownload HC HD self possible_mime num_bytes false = Raise e ->
    forall more is_complete_file_size,
      num_bytes <= more ->
      exists e',
        CheckNetworkDownload HC HD self possible_mime more is_complete_file_size
        = Raise e'.
Proof.
  intros self possible_mime num_bytes e H more is_complete_file_size Hmore.
  unfold CheckNetworkDownload in *.
  destruct possible_mime as [t |], (_max_gif_size self) as [g |],
    (_max_size self) as [x |]; cbn in *; size_cases;
    try discriminate H; try lia; cbn; eauto.
Qed.

(** X3. A file that [CheckFileIsValid] accepts is never rejected while it is
    downloaded: the guard passes every size up to the size of the file when
    the media type is unknown or is that of the file, and it passes the
    complete size. *)
Theorem X3_valid_file_is_never_rejected_in_download :
  forall self size mime width height,
    CheckFileIsValid HC HD self size mime width height = Ok tt ->
    forall possible_mime,
      possible_mime = None \/ possible_mime = Some mime ->
      (forall num_bytes,
          num_bytes <= size ->
          CheckNetworkDownload HC HD self possible_mime num_bytes false = Ok tt) /\
      CheckNetworkDownload HC HD self possible_mime size true = Ok tt.
Proof.
  intros self size mime width height H possible_mime Hmime.
  unfold CheckFileIsValid in H. unfold CheckNetworkDownload.
  destruct (_min_size self) as [n |], (_max_size self) as [x |],
    (_max_gif_size self) as [g |]; cbn in H;
    destruct Hmime as [-> | ->]; cbn; size_cases;
    try discriminate H; try lia;
    (split; [ intros num_bytes Hle; size_cases; try lia; reflexivity
            | size_cases; try lia; reflexivity ]).
Qed.

(** X4. Without resolution limits the converse holds: a complete download of
    known media type that passes the guard is accepted by
    [CheckFileIsValid]. *)
Theorem X4_complete_download_is_valid_file :
  forall self size mime width height,
    _min_resolution self = None ->
    _max_resolution self = None ->
    CheckNetworkDownload HC HD self (Some mime) size true = Ok tt ->
    CheckFileIsValid HC HD self size mime width height = Ok tt.
Proof.
  intros self size mime width height Hmin Hmax H.
  unfold CheckNetworkDownload in H. unfold CheckFileIsValid.
  rewrite Hmin, Hmax.
  destruct (_min_size self) as [n |], (_max_size self) as [x |],
    (_max_gif_size self) as [g |]; cbn in *; size_cases;
    try discriminate H; try lia; reflexivity.
Qed.

(** X5. The two checks order the upper limits differently: for a gif above
    both the general and the gif limit, and not below the lower limit,
    [CheckFileIsValid] cites the general limit and [CheckNetworkDownload] the
    gif limit. *)
Theorem X5_gif_limit_order_differs :
  forall self size width height max_size max_gif_size is_complete_file_size,
    _max_size self = Some max_size ->
    _max_gif_size self = Some max_gif_size ->
    max_size < size ->
    max_gif_size < size ->
    match _min_size self with
    | Some min_size => min_size <= size
    | None => True
    end ->
    CheckFileIsValid HC HD self size (IMAGE_GIF HC) width height
    = Raise (FileSizeException (max_size_message HD size max_size)) /\
    CheckNetworkDownload HC HD self (Some (IMAGE_GIF HC)) size is_complete_file_size
    = Raise (FileSizeException
               (download_gif_message HD (download_prefix is_complete_file_size)
                  size max_gif_size)).
Proof.
  intros self size width height max_size max_gif_size is_complete_file_size
    Hmax Hgif Hs Hg Hmin.
  unfold CheckFileIsValid, CheckNetworkDownload, download_prefix.
  rewrite Hmax, Hgif.
  destruct (_min_size self) as [n |]; cbn; size_cases; try lia;
    split; try reflexivity; try contradiction.
Qed.

End NetworkDownloadProperties.

(** ** Setters *)

(** X6. The setters of the post-import and of the presentation options do
    not change what the two checks decide, nor what [GetPreImportOptions]
    returns. *)
Theorem X6_other_setters_keep_validation :
  forall HC HD self a b c,
    (forall size mime width height,
        CheckFileIsValid HC HD (SetPostImportOptions self a b c) size mime width height
        = CheckFileIsValid HC HD self size mime width height /\
        CheckFileIsValid HC HD (SetPresentationOptions self a b c) size mime
          width height
        = CheckFileIsValid HC HD self size mime width height) /\
    (forall possible_mime num_bytes is_complete_file_size,
        CheckNetworkDownload HC HD (SetPostImportOptions self a b c) possible_mime
          num_bytes is_complete_file_size
        = CheckNetworkDownload HC HD self possible_mime num_bytes
            is_complete_file_size /\
        CheckNetworkDownload HC HD (SetPresentationOptions self a b c) possible_mime
          num_bytes is_complete_file_size
        = CheckNetworkDownload HC HD self possible_mime num_bytes
            is_complete_file_size) /\
    GetPreImportOptions (SetPostImportOptions self a b c) = GetPreImportOptions self /\
    GetPreImportOptions (SetPresentationOptions self a b c)
    = GetPreImportOptions self.
Proof.
  intros HC HD self a b c. repeat split.
Qed.


(** ** Loading and migration *)

(** Take apart the Python value that a successful load was given. *)
Ltac unpack_loaded H :=
  repeat match type of H with
         | context [ match ?x with _ => _ end ] =>
           is_var x; destruct x; try discriminate H
         end.


(** X9. Migration of a version-1 tuple keeps every value it holds: whatever
    the four values are, the four steps lead to version 5 and loading the
    result gives these four values and the defaults of the later versions. *)
Theorem X9_migration_from_version_1_keeps_values :
  forall (automatic_archive exclude_deleted : bool) (min_size : option Z)
         (min_resolution : option (Z * Z)) (other : FileImportOptions),
  exists i2 i3 i4 i5,
    _UpdateSerialisableInfo 1
      (PyTuple [ Py.of_bool automatic_archive; Py.of_bool exclude_deleted;
                 Py.of_size min_size; Py.of_resolution min_resolution ])
    = Ok (Some (2, i2)) /\
    _UpdateSerialisableInfo 2 i2 = Ok (Some (3, i3)) /\
    _UpdateSerialisableInfo 3 i3 = Ok (Some (4, i4)) /\
    _UpdateSerialisableInfo 4 i4 = Ok (Some (5, i5)) /\
    _InitialiseFromSerialisableInfo other i5
    = Ok (mkFileImportOptions exclude_deleted false false true
            min_size None (Some (32 * 1048576)) min_resolution None
            automatic_archive true true
            true false false).
Proof.
  intros automatic_archive exclude_deleted min_size min_resolution other.
  do 4 eexists. repeat (split; [ reflexivity | ]).
  destruct min_size, min_resolution as [[w h] |]; reflexivity.
Qed.

(** X10. The later steps keep every value too: from a version-2, version-3 or
    version-4 tuple the remaining steps and the load give options that hold
    the values of the tuple, and the defaults for the fields added since. *)
Theorem X10_migration_from_later_versions_keeps_values :
  forall (exclude_deleted allow_decompression_bombs do_not_check_known_urls
            do_not_check_hashes automatic_archive associate_source_urls
            present_new present_inbox present_archive : bool)
         (min_size max_size max_gif_size : option Z)
         (min_resolution max_resolution : option (Z * Z))
         (other : FileImportOptions),
    (exists i3 i4 i5,
        _UpdateSerialisableInfo 2
          (PyTuple [ Py.of_bool automatic_archive; Py.of_bool exclude_deleted;
                     Py.of_bool present_new; Py.of_bool present_inbox;
                     Py.of_bool present_archive;
                     Py.of_size min_size; Py.of_resolution min_resolution ])
        = Ok (Some (3, i3)) /\
        _UpdateSerialisableInfo 3 i3 = Ok (Some (4, i4)) /\
        _UpdateSerialisableInfo 4 i4 = Ok (Some (5, i5)) /\
        _InitialiseFromSerialisableInfo other i5
        = Ok (mkFileImportOptions exclude_deleted false false true
                min_size None (Some (32 * 1048576)) min_resolution None
                automatic_archive true true
                present_new present_inbox present_archive)) /\
    (exists i4 i5,
        _UpdateSerialisableInfo 3
          (PyTuple [ PyTuple [ Py.of_bool exclude_deleted;
                               Py.of_bool allow_decompression_bombs;
                               Py.of_size min_size; Py.of_size max_size;
                               Py.of_size max_gif_size;
                               Py.of_resolution min_resolution;
                               Py.of_resolution max_resolution ];
                     Py.of_bool automatic_archive;
                     PyTuple [ Py.of_bool present_new; Py.of_bool present_inbox;
                               Py.of_bool present_archive ] ])
        = Ok (Some (4, i4)) /\
        _UpdateSerialisableInfo 4 i4 = Ok (Some (5, i5)) /\
        _InitialiseFromSerialisableInfo other i5
        = Ok (mkFileImportOptions exclude_deleted false false
                allow_decompression_bombs
                min_size max_size max_gif_size min_resolution max_resolution
                automatic_archive true true
                present_new present_inbox present_archive)) /\
    (exists i5,
        _UpdateSerialisableInfo 4
          (PyTuple [ PyTuple [ Py.of_bool exclude_deleted;
                               Py.of_bool do_not_check_known_urls;
                               Py.of_bool do_not_check_hashes;
                               Py.of_bool allow_decompression_bombs;
                               Py.of_size min_size; Py.of_size max_size;
                               Py.of_size max_gif_size;
                               Py.of_resolution min_resolution;
                               Py.of_resolution max_resolution ];
                     PyTuple [ Py.of_bool automatic_archive;
                               Py.of_bool associate_source_urls ];
                     PyTuple [ Py.of_bool present_new; Py.of_bool present_inbox;
                               Py.of_bool present_archive ] ])
        = Ok (Some (5, i5)) /\
        _InitialiseFromSerialisableInfo other i5
        = Ok (mkFileImportOptions exclude_deleted do_not_check_known_urls
                do_not_check_hashes allow_decompression_bombs
                min_size max_size max_gif_size min_resolution max_resolution
                automatic_archive true associate_source_urls
                present_new present_inbox present_archive)).
Proof.
  intros. split; [ | split ].
  - do 3 eexists. repeat (split; [ reflexivity | ]).
    destruct min_size, min_resolution as [[w h] |]; reflexivity.
  - do 2 eexists. repeat (split; [ reflexivity | ]).
    destruct min_size, max_size, max_gif_size, min_resolution as [[w h] |],
      max_resolution as [[w' h'] |]; reflexivity.
  - eexists. split; [ reflexivity | ].
    destruct min_size, max_size, max_gif_size, min_resolution as [[w h] |],
      max_resolution as [[w' h'] |]; reflexivity.
Qed.

(** X11. The step has branches for the versions 1 to 4 only: when it returns
    a pair, the given version is one of these and the returned version is the
    next one; for every other version it returns [None], whatever the data,
    and does not raise. *)
Theorem X11_step_versions :
  forall version info,
    (forall version' info',
        _UpdateSerialisableInfo version info = Ok (Some (version', info')) ->
        1 <= version <= 4 /\ version' = version + 1) /\
    (version < 1 \/ 4 < version ->
     _UpdateSerialisableInfo version info = Ok None).
Proof.
  intros version info. split.
  - intros version' info'. apply _UpdateSerialisableInfo_next.
  - intros Hout. unfold _UpdateSerialisableInfo.
    destruct (Z.eqb_spec version 1); [ lia | ].
    destruct (Z.eqb_spec version 2); [ lia | ].
    destruct (Z.eqb_spec version 3); [ lia | ].
    destruct (Z.eqb_spec version 4); [ lia | ].
    reflexivity.
Qed.


(** ** The summary *)

Lemma string_append_assoc :
  forall a b c : string, ((a ++ b) ++ c)%string = (a ++ (b ++ c))%string.
Proof.
  induction a as [| x a IH]; intros b c; cbn; [ reflexivity | now rewrite IH ].
Qed.

Lemma join_append :
  forall separator statements statement,
  exists before,
    join separator (append statement statements) = (before ++ statement)%string.
Proof.
  intros separator statements statement. unfold join, append.
  induction statements as [| s statements [before IH]].
  - exists "". reflexivity.
  - exists (s ++ separator ++ before)%string.
    change ((s :: statements) ++ [ statement ])%list
      with (s :: (statements ++ [ statement ]))%list.
    cbn [String.concat].
    destruct (statements ++ [ statement ])%list eqn:E.
    + destruct statements; discriminate E.
    + rewrite IH. now rewrite !string_append_assoc.
Qed.

Section SummaryProperties.

Variable HD : HydrusData.
Variable ToHumanInt : Z -> string.
Variable linesep : string.

(** X13. The summary always ends with the statement on what is presented,
    whatever the options and whatever the line separator; in particular it is
    never empty. *)
Theorem X13_summary_ends_with_presentation :
  forall self,
    (exists before,
        GetSummary HD ToHumanInt linesep self
        = (before ++ presentation_statement self)%string) /\
    GetSummary HD ToHumanInt linesep self <> "".
Proof.
  intros self.
  assert (Hlast : exists statements,
             summary_statements HD ToHumanInt self
             = append (presentation_statement self) statements).
  { unfold summary_statements. cbv zeta. eexists. reflexivity. }
  destruct Hlast as [statements Hlast].
  destruct (join_append linesep statements (presentation_statement self))
    as [before Hjoin].
  assert (Hsummary : GetSummary HD ToHumanInt linesep self
                     = (before ++ presentation_statement self)%string).
  { unfold GetSummary. rewrite Hlast. exact Hjoin. }
  split; [ eauto | ].
  rewrite Hsummary. unfold presentation_statement.
  destruct before; [ | discriminate ].
  repeat match goal with
         | |- context [ if ?b then _ else _ ] => destruct b
         end; discriminate.
Qed.

End SummaryProperties.

(** X14. The statement on what is presented is "not presenting any files"
    exactly when the three presentation flags are off, and "presenting all
    files" exactly when the three are on. *)
Theorem X14_presentation_statement_cases :
  forall self,
    (presentation_statement self = "not presenting any files" <->
     GetPresentationOptions self = (false, false, false)) /\
    (presentation_statement self = "presenting all files" <->
     GetPresentationOptions self = (true, true, true)).
Proof.
  intros self.
  unfold presentation_statement, presentation_statements, GetPresentationOptions.
  destruct (_present_new_files self), (_present_already_in_inbox_files self),
    (_present_already_in_archive_files self);
    cbn; split; split; intros H; try reflexivity; discriminate H.
Qed.

(** * Further properties of the reconciler and the job *)

Section ReconcilerProperties.

Variable W : Collaborators.

(** X15. A fault of the store probe other than the missing file is not taken
    for a missing file: the reconciler lets it through to its caller and
    returns no status. *)
Theorem X15_reconciler_lets_other_faults_through :
  forall s m h t e,
    status s = STATUS_SUCCESSFUL_BUT_REDUNDANT ->
    hash s = Some h ->
    mime s = Some t ->
    GetFilePath W h t = Raise e ->
    (forall message, e <> FileMissingException message) ->
    CheckFileImportStatus W s m = (Raise e, after_call (Call_GetFilePath h t) m).
Proof.
  intros s m h t e Hcode Hh Ht Hprobe Hother.
  apply AlreadyInDB_iff in Hcode.
  unfold CheckFileImportStatus. rewrite Hcode, Hh, Ht.
  unfold try_except. rewrite bind_call, Hprobe.
  destruct e; try reflexivity.
  exfalso. eapply Hother. reflexivity.
Qed.


(** X17. What hashing and lookup leave as pre-import status: the status that
    the read port returned with its identity replaced by the digest computed
    from the file, unless that status was AlreadyPresent with a media type
    and the store probe found the file missing; then it is the Unknown status
    of the reconciler, with the digest and the media type. *)
Theorem X17_lookup_forces_the_digest :
  forall status_hook m0 m1,
    GeneratePreImportHashAndStatus W status_hook m0 = (Ok tt, m1) ->
    exists h found,
      GetHashFromPath W (_temp_path (job m0)) = Ok h /\
      Read_hash_status W h = Ok found /\
      GetHash (job m1) = Some h /\
      (_pre_import_file_status (job m1) = set_hash (Some h) found \/
       (status found = STATUS_SUCCESSFUL_BUT_REDUNDANT /\
        _pre_import_file_status (job m1)
        = mkFileImportStatus STATUS_UNKNOWN (Some h) (mime found) missing_note)).
Proof.
  intros status_hook m0 m1. unfold GeneratePreImportHashAndStatus.
  rewrite bind_gets, bind_call.
  destruct (ConvertToPNGIfBMP W _); [ | discriminate ].
  rewrite bind_hook, bind_call. cbn [job after_call].
  destruct (GetHashFromPath W _) as [h |] eqn:Hhash; [ | discriminate ].
  rewrite bind_hook, bind_call.
  destruct (Read_hash_status W h) as [found |] eqn:Hread; [ | discriminate ].
  rewrite !bind_modify, bind_gets.
  intros H. apply bind_inv in H as [[checked [m [Hc Hm]]] | [e [_ He]]];
    [ | discriminate ].
  exists h, found. split; [ reflexivity | split; [ exact Hread | ] ].
  inversion Hm; subst; clear Hm. unfold GetHash. cbn in *.
  unfold CheckFileImportStatus in Hc.
  destruct (AlreadyInDB (set_hash (Some h) found)) eqn:Hcode.
  - unfold try_except in Hc. cbn [hash set_hash mime] in Hc.
    destruct (mime found) as [t |] eqn:Ht.
    + rewrite bind_call in Hc.
      destruct (GetFilePath W h t) as [path | []]; inversion Hc; subst; cbn.
      * split; [ reflexivity | left; reflexivity ].
      * split; [ reflexivity | right ]. rewrite <- Ht.
        split; [ now apply AlreadyInDB_iff in Hcode | reflexivity ].
    + inversion Hc; subst. split; [ reflexivity | left; reflexivity ].
  - inversion Hc; subst. split; [ reflexivity | left; reflexivity ].
Qed.

(** X18. Self-healing leads to an import: when the read port answers
    AlreadyPresent with a media type and the store probe finds the file
    missing, hashing and lookup complete with the Unknown status, which is to
    be imported under every options. *)
Theorem X18_missing_file_is_imported_again :
  forall status_hook m0 h found t message,
    ConvertToPNGIfBMP W (_temp_path (job m0)) = Ok tt ->
    GetHashFromPath W (_temp_path (job m0)) = Ok h ->
    Read_hash_status W h = Ok found ->
    status found = STATUS_SUCCESSFUL_BUT_REDUNDANT ->
    mime found = Some t ->
    GetFilePath W h t = Raise (FileMissingException message) ->
    exists m1,
      GeneratePreImportHashAndStatus W status_hook m0 = (Ok tt, m1) /\
      _pre_import_file_status (job m1)
      = mkFileImportStatus STATUS_UNKNOWN (Some h) (Some t) missing_note /\
      forall file_import_options,
        ShouldImport (_pre_import_file_status (job m1)) file_import_options = true.
Proof.
  intros status_hook m0 h found t message Hpng Hhash Hread Hcode Ht Hprobe.
  unfold GeneratePreImportHashAndStatus.
  rewrite bind_gets, bind_call, Hpng.
  rewrite bind_hook, bind_call. cbn [job after_call].
  rewrite Hhash, bind_hook, bind_call, Hread.
  rewrite !bind_modify, bind_gets.
  cbn [job set_pre_import_file_status _pre_import_file_status].
  assert (Hheal : forall m,
             CheckFileImportStatus W (set_hash (Some h) found) m
             = (Ok (mkFileImportStatus STATUS_UNKNOWN (Some h) (Some t) missing_note),
                after_call (Call_GetFilePath h t) m)).
  { intros m. unfold CheckFileImportStatus, AlreadyInDB.
    cbn [status set_hash hash mime]. rewrite Hcode, Ht. cbn [CC.eqb].
    unfold try_except. rewrite bind_call, Hprobe. reflexivity. }
  rewrite (bind_Ok _ _ _ _ _ (Hheal _)).
  eexists. split; [ reflexivity | ]. split; reflexivity.
Qed.

End ReconcilerProperties.


Lemma job_if_hook :
  forall (status_hook : bool) e m,
    job (if status_hook then after_call e m else m) = job m.
Proof. intros [|] e m; reflexivity. Qed.

Lemma calls_if_hook :
  forall (status_hook : bool) text m,
    calls (if status_hook then after_call (Call_status_hook text) m else m)
    = (calls m ++ hook_calls status_hook text)%list.
Proof. intros [|] text m; cbn; [ reflexivity | now rewrite app_nil_r ]. Qed.


(** Run the binds at the head of the computation in the goal: reads,
    assignments, hooks and calls. *)
Ltac run :=
  repeat first
    [ rewrite bind_assoc | rewrite bind_gets | rewrite bind_modify
    | rewrite bind_ret | rewrite bind_hook | rewrite bind_call ];
  cbv beta iota.

Section CommitProperties.

Variable HC : HydrusConstants.
Variable HD : HydrusData.
Variable W : Collaborators.

(** The veto check of a file that is valid leaves the job as it is and lets
    the commit go ahead. *)
Lemma check_or_veto_valid :
  forall m size info_mime width height duration num_frames has_audio num_words,
    _file_info (job m)
    = Some (size, info_mime, width, height, duration, num_frames, has_audio,
            num_words) ->
    CheckFileIsValid HC HD (_file_import_options (job m)) size info_mime width height
    = Ok tt ->
    check_or_veto HC HD m = (Ok None, m).
Proof.
  intros m size info_mime width height duration num_frames has_audio num_words
    Hinfo Hvalid.
  unfold check_or_veto, try_except, CheckIsGoodToImport.
  rewrite bind_assoc, bind_gets, Hinfo, bind_assoc, bind_gets.
  unfold bind, lift. rewrite Hvalid. reflexivity.
Qed.

(** X19. The import of a valid file: the file is added to the store under
    the identity and media type of the job, then the write port imports the
    job, and the status that the write port returns is the status that
    [DoWork] stores and returns.  The calls after the extraction are these
    two, each after its status hook when there is one, and then the archive
    update when the write port answered AlreadyPresent and the options archive
    automatically. *)
Theorem X19_valid_file_is_committed :
  forall status_hook m0 m1 m2 size info_mime width height duration num_frames
         has_audio num_words final,
    GeneratePreImportHashAndStatus W status_hook m0 = (Ok tt, m1) ->
    ShouldImport (_pre_import_file_status (job m1))
                 (_file_import_options (job m1)) = true ->
    GenerateInfo HC W status_hook m1 = (Ok tt, m2) ->
    _file_info (job m2)
    = Some (size, info_mime, width, height, duration, num_frames, has_audio,
            num_words) ->
    CheckFileIsValid HC HD (_file_import_options (job m2)) size info_mime width height
    = Ok tt ->
    AddFile W (GetHash (job m2)) (GetMime (job m2)) (_temp_path (job m2))
      (_thumbnail_bytes (job m2)) = Ok tt ->
    WriteSynchronous_import_file W (job m2) = Ok final ->
    exists m',
      DoWork HC HD W status_hook m0 = (Ok final, m') /\
      job m' = set_post_import_file_status final (job m2) /\
      calls m'
      = (calls m2
           ++ hook_calls status_hook "copying file into file storage"
           ++ [ Call_AddFile (GetHash (job m2)) (GetMime (job m2))
                  (_temp_path (job m2)) (_thumbnail_bytes (job m2)) ]
           ++ hook_calls status_hook "importing to database"
           ++ [ Call_WriteSynchronous_import_file (job m2) ]
           ++ (if AlreadyInDB final
                  && AutomaticallyArchives (_file_import_options (job m2))
               then [ archive_update (GetHash (job m2)) ]
               else []))%list.
Proof.
  intros status_hook m0 m1 m2 size info_mime width height duration num_frames
    has_audio num_words final H1 H2 H3 Hinfo Hvalid Hadd Himport.
  unfold DoWork.
  rewrite (bind_Ok _ _ _ _ _ H1), !bind_gets, H2.
  unfold DoWork_import.
  rewrite !bind_assoc, (bind_Ok _ _ _ _ _ H3).
  rewrite bind_assoc, (bind_Ok _ _ _ _ _ (check_or_veto_valid _ _ _ _ _ _ _ _ _ Hinfo Hvalid)).
  unfold DoWork_commit.
  run. rewrite Hadd. run.
  cbn [job after_call]. rewrite !job_if_hook. cbn [job after_call].
  rewrite job_if_hook, Himport. run.
  rewrite (bind_Ok _ _ _ _ _ (PubsubContentUpdates_run _)).
  unfold gets, set_post_import_file_status, GetHash.
  cbn [job calls after_call _post_import_file_status _file_import_options
         _pre_import_file_status].
  rewrite !job_if_hook. cbn [job after_call]. rewrite ?job_if_hook.
  destruct (AlreadyInDB final && _), status_hook;
    eexists; (split; [ reflexivity | ]);
    (split; [ reflexivity | ]);
    cbn [job calls after_call hook_calls app];
    rewrite <- ?app_assoc; reflexivity.
Qed.

(** X20. When the store cannot add the file, the fault leaves [DoWork]: the
    write port is not asked to import the job, nothing is published and the
    job is left as the extraction left it. *)
Theorem X20_failed_add_stops_the_import :
  forall status_hook m0 m1 m2 size info_mime width height duration num_frames
         has_audio num_words e,
    GeneratePreImportHashAndStatus W status_hook m0 = (Ok tt, m1) ->
    ShouldImport (_pre_import_file_status (job m1))
                 (_file_import_options (job m1)) = true ->
    GenerateInfo HC W status_hook m1 = (Ok tt, m2) ->
    _file_info (job m2)
    = Some (size, info_mime, width, height, duration, num_frames, has_audio,
            num_words) ->
    CheckFileIsValid HC HD (_file_import_options (job m2)) size info_mime width height
    = Ok tt ->
    AddFile W (GetHash (job m2)) (GetMime (job m2)) (_temp_path (job m2))
      (_thumbnail_bytes (job m2)) = Raise e ->
    exists m',
      DoWork HC HD W status_hook m0 = (Raise e, m') /\
      job m' = job m2 /\
      calls m'
      = (calls m2
           ++ hook_calls status_hook "copying file into file storage"
           ++ [ Call_AddFile (GetHash (job m2)) (GetMime (job m2))
                  (_temp_path (job m2)) (_thumbnail_bytes (job m2)) ])%list.
Proof.
  intros status_hook m0 m1 m2 size info_mime width height duration num_frames
    has_audio num_words e H1 H2 H3 Hinfo Hvalid Hadd.
  unfold DoWork.
  rewrite (bind_Ok _ _ _ _ _ H1), !bind_gets, H2.
  unfold DoWork_import.
  rewrite !bind_assoc, (bind_Ok _ _ _ _ _ H3).
  rewrite bind_assoc, (bind_Ok _ _ _ _ _ (check_or_veto_valid _ _ _ _ _ _ _ _ _ Hinfo Hvalid)).
  unfold DoWork_commit.
  run. rewrite Hadd. cbv beta iota.
  eexists. split; [ reflexivity | ].
  cbn [job calls after_call]. rewrite job_if_hook, calls_if_hook.
  split; [ reflexivity | ].
  rewrite <- ?app_assoc. reflexivity.
Qed.

End CommitProperties.

Section ExtractionProperties.

Variable HC : HydrusConstants.
Variable HD : HydrusData.
Variable W : Collaborators.

(** Bring the job and the record of calls of the machine in the goal to the
    fields they are made of. *)
Ltac fields :=
  unfold set_pre_import_file_status, set_post_import_file_status, set_file_info,
    set_thumbnail_bytes, set_phashes, set_extra_hashes,
    set_file_modified_timestamp, set_mime, GetHash, GetMime;
  cbn [job calls after_call call_status_hook
         _temp_path _file_import_options _pre_import_file_status
         _post_import_file_status _file_info _thumbnail_bytes _phashes
         _extra_hashes _file_modified_timestamp status hash mime note].

(** X21. A thumbnail that cannot be rendered is fatal: when the media type
    that the extraction reports has thumbnails and the renderer raises,
    [DoWork] raises a [DamagedOrUnusualFileException] whose message is
    "Could not render a thumbnail: " and the text of the renderer's
    exception; no status is returned and nothing is committed or published. *)
Theorem X21_thumbnail_failure_is_fatal :
  forall status_hook m0 m1 t size info_mime width height duration num_frames
         has_audio num_words str_e,
    GeneratePreImportHashAndStatus W status_hook m0 = (Ok tt, m1) ->
    ShouldImport (_pre_import_file_status (job m1))
                 (_file_import_options (job m1)) = true ->
    (mime (_pre_import_file_status (job m1)) = Some t \/
     (mime (_pre_import_file_status (job m1)) = None /\
      HydrusFileHandling_GetMime W (_temp_path (job m1)) = Ok t)) ->
    (mime_in t (DECOMPRESSION_BOMB_IMAGES HC)
     && negb (AllowsDecompressionBombs (_file_import_options (job m1))) = false \/
     IsDecompressionBomb W (_temp_path (job m1)) = Ok false) ->
    GetFileInfo W (_temp_path (job m1)) t
    = Ok (size, info_mime, width, height, duration, num_frames, has_audio,
          num_words) ->
    mime_in info_mime (MIMES_WITH_THUMBNAILS HC) = true ->
    GenerateThumbnailBytes W (_temp_path (job m1))
      (GetThumbnailResolution W (width, height) (thumbnail_dimensions W))
      info_mime duration num_frames (video_thumbnail_percentage_in W)
    = RenderingRaised str_e ->
    exists m',
      DoWork HC HD W status_hook m0
      = (Raise (DamagedOrUnusualFileException
                  ("Could not render a thumbnail: " ++ str_e)), m') /\
      extends_by no_commit_or_update m0 m'.
Proof.
  intros status_hook m0 m1 t size info_mime width height duration num_frames
    has_audio num_words str_e H1 H2 Hmime Hguard Hinfo Hthumbs Hrender.
  assert (Hraise : exists m',
             GenerateInfo HC W status_hook m1
             = (Raise (DamagedOrUnusualFileException
                         ("Could not render a thumbnail: " ++ str_e)), m')).
  { unfold GenerateInfo.
    destruct status_hook, Hmime as [Ht | [Ht Hsniff]], Hguard as [Hg | Hp];
      repeat first
        [ progress run
        | progress fields
        | rewrite Ht | rewrite Hsniff | rewrite Hg | rewrite Hp
        | rewrite Hinfo | rewrite Hthumbs | rewrite Hrender
        | match goal with
          | |- context [ if ?b then _ else _ ] => destruct b
          end ];
      eexists; reflexivity. }
  destruct Hraise as [m' Hraise]. exists m'. split.
  - unfold DoWork.
    rewrite (bind_Ok _ _ _ _ _ H1), !bind_gets, H2.
    unfold DoWork_import.
    rewrite !bind_assoc. apply bind_Raise. exact Hraise.
  - eapply extends_by_trans.
    + eapply extends_by_weaken;
        [ | apply (GeneratePreImportHashAndStatus_frames W _ _ _ _ H1) ].
      intros []; cbn; congruence.
    + apply (GenerateInfo_frames HC W _ _ _ _ Hraise).
Qed.

End ExtractionProperties.

Lemma same_info_refl : forall j, same_info j j.
Proof. intros j. split; [ apply same_task_refl | reflexivity ]. Qed.

Lemma same_info_trans :
  forall j1 j2 j3, same_info j1 j2 -> same_info j2 j3 -> same_info j1 j3.
Proof.
  intros j1 j2 j3 [a b] [c d].
  split; [ eapply same_task_trans; eassumption | congruence ].
Qed.

#[local] Hint Resolve same_info_refl same_info_trans : frames.

Lemma existsb_unchanged :
  forall (P Q : event -> bool) m m',
    extends_by P m m' ->
    (forall e, P e = true -> Q e = false) ->
    existsb Q (calls m') = existsb Q (calls m).
Proof.
  intros P Q m m' [added [-> Hadded]] HPQ.
  rewrite existsb_app.
  assert (Hnone : existsb Q added = false).
  { clear - Hadded HPQ. induction added as [| e added IH]; [ reflexivity | ].
    cbn in *. apply andb_true_iff in Hadded as [He Hl].
    rewrite (HPQ e He), (IH Hl). reflexivity. }
  rewrite Hnone. apply orb_false_r.
Qed.

Section SafetyProperties.

Variable HC : HydrusConstants.
Variable HD : HydrusData.
Variable W : Collaborators.

Lemma PubsubContentUpdates_frames :
  forall R, (forall j, R j j) -> (forall j1 j2 j3, R j1 j2 -> R j2 j3 -> R j1 j3) ->
            frames R is_content_update PubsubContentUpdates.
Proof.
  intros R Hrefl Htrans. unfold PubsubContentUpdates. frame.
Qed.

Lemma DoWork_commit_keeps_info :
  forall status_hook,
    frames same_info no_extraction (DoWork_commit W status_hook).
Proof.
  intros status_hook. unfold DoWork_commit. frame.
Qed.

Lemma check_or_veto_inv :
  forall m r m',
    check_or_veto HC HD m = (r, m') ->
    m' = m /\ (r = Ok None -> validated HC HD (job m)).
Proof.
  intros m r m'. unfold check_or_veto, try_except, CheckIsGoodToImport.
  rewrite bind_assoc, bind_gets.
  destruct (_file_info (job m))
    as [[[[[[[[size info_mime] width] height] duration] num_frames] has_audio]
          num_words] |] eqn:Hinfo.
  - rewrite bind_assoc, bind_gets. unfold bind, lift.
    destruct (CheckFileIsValid HC HD (_file_import_options (job m)) size info_mime
                width height) as [[] | e] eqn:Hvalid.
    + intros H; inversion H; subst. split; [ reflexivity | ].
      intros _. unfold validated. rewrite Hinfo. eauto 10.
    + destruct e; intros H; inversion H; subst;
        (split; [ reflexivity | intros Habs; discriminate Habs ]).
  - unfold bind, raise. intros H; inversion H; subst.
    split; [ reflexivity | intros Habs; discriminate Habs ].
Qed.

Lemma validated_same_info :
  forall j j', same_info j j' -> validated HC HD j -> validated HC HD j'.
Proof.
  intros j j' [[_ Hopt] Hinfo] (s & t & w & h & d & n & a & x & Hj & Hv).
  unfold validated. rewrite Hinfo, Hopt. eauto 10.
Qed.

(** After the extraction a commit call is made only for a validated file. *)
Lemma rest_commits :
  forall status_hook m r m',
    (not_ok <- check_or_veto HC HD ;;
     match not_ok with
     | None => DoWork_commit W status_hook
     | Some not_ok_file_import_status =>
       modify (set_post_import_file_status not_ok_file_import_status)
     end) m = (r, m') ->
    existsb is_commit (calls m') = existsb is_commit (calls m) \/
    validated HC HD (job m').
Proof.
  intros status_hook m r m' H.
  apply bind_inv in H as [[not_ok [m1 [Hc H]]] | [e [Hc ->]]].
  - apply check_or_veto_inv in Hc as [-> Hvalid].
    destruct not_ok as [vetoed |].
    + inversion H; subst. left. reflexivity.
    + right. eapply validated_same_info;
        [ apply (DoWork_commit_keeps_info _ _ _ _ H) | auto ].
  - apply check_or_veto_inv in Hc as [-> _]. left. reflexivity.
Qed.

(** The stages of a run: hashing and lookup first; then either nothing but
    the publication, or the extraction followed by calls that are no
    extraction calls. *)
Lemma DoWork_stages :
  forall status_hook m0 r m',
    DoWork HC HD W status_hook m0 = (r, m') ->
    exists r1 m1,
      GeneratePreImportHashAndStatus W status_hook m0 = (r1, m1) /\
      ((exists e, r1 = Raise e /\ m' = m1) \/
       (r1 = Ok tt /\
        ShouldImport (_pre_import_file_status (job m1))
                     (_file_import_options (job m1)) = false /\
        same_task (job m1) (job m') /\
        extends_by is_content_update m1 m') \/
       (r1 = Ok tt /\
        ShouldImport (_pre_import_file_status (job m1))
                     (_file_import_options (job m1)) = true /\
        exists r2 m2,
          GenerateInfo HC W status_hook m1 = (r2, m2) /\
          same_info (job m2) (job m') /\
          extends_by no_extraction m2 m' /\
          (existsb is_commit (calls m') = existsb is_commit (calls m2) \/
           validated HC HD (job m')))).
Proof.
  intros status_hook m0 r m' H. unfold DoWork in H.
  apply bind_inv in H as [[[] [m1 [H1 H]]] | [e [H1 ->]]];
    [ | exists (Raise e), m'; split; [ exact H1 | left; eauto ] ].
  exists (Ok tt), m1. split; [ exact H1 | right ].
  rewrite !bind_gets in H.
  destruct (ShouldImport _ _) eqn:Hshould; [ right | left ];
    (split; [ reflexivity | split; [ reflexivity | ] ]).
  2: split.
  - assert (Hrest : frames same_info no_extraction
                      (not_ok <- check_or_veto HC HD ;;
                       match not_ok with
                       | None => DoWork_commit W status_hook
                       | Some not_ok_file_import_status =>
                         modify (set_post_import_file_status
                                   not_ok_file_import_status)
                       end)).
    { frame.
      - intros m r0 m0' Hc. apply check_or_veto_inv in Hc as [-> _].
        split; [ apply same_info_refl | apply extends_by_refl ].
      - apply DoWork_commit_keeps_info. }
    assert (Hpub : frames same_info no_extraction
                     (PubsubContentUpdates ;; gets _post_import_file_status)).
    { frame. eapply frames_weaken;
               [ | | apply (PubsubContentUpdates_frames same_info) ];
               eauto with frames.
      intros []; cbn; congruence. }
    unfold DoWork_import in H. rewrite bind_assoc in H.
    apply bind_inv in H as [[[] [m2 [H2 H]]] | [e [H2 ->]]].
    + exists (Ok tt), m2. split; [ exact H2 | ].
      apply bind_inv in H as [[[] [m3 [H3 H]]] | [e [H3 ->]]].
      * destruct (Hrest _ _ _ H3) as [Ra Ea], (Hpub _ _ _ H) as [Rb Eb].
        split; [ eapply same_info_trans; eassumption | ].
        split; [ eapply extends_by_trans; eassumption | ].
        rewrite (bind_Ok _ _ _ _ _ (PubsubContentUpdates_run _)) in H.
        assert (Hsame : existsb is_commit (calls m') = existsb is_commit (calls m3)
                        /\ job m' = job m3).
        { inversion H; subst. destruct (AlreadyInDB _ && _); cbn.
          - rewrite existsb_app. cbn. now rewrite orb_false_r.
          - auto. }
        destruct Hsame as [Hsame Hjob]. rewrite Hsame, Hjob.
        apply (rest_commits _ _ _ _ H3).
      * split; [ exact (proj1 (Hrest _ _ _ H3)) | ].
        split; [ exact (proj2 (Hrest _ _ _ H3)) | ].
        apply (rest_commits _ _ _ _ H3).
    + exists (Raise e), m'. split; [ exact H2 | ].
      split; [ apply same_info_refl | ].
      split; [ apply extends_by_refl | left; reflexivity ].
  - apply bind_inv in H as [[[] [m2 [H2 H]]] | [e [H2 ->]]].
    + rewrite bind_gets in H2. inversion H2; subst; clear H2.
      rewrite (bind_Ok _ _ _ _ _ (PubsubContentUpdates_run _)) in H.
      inversion H; subst; clear H.
      destruct (AlreadyInDB _ && _); split; reflexivity.
    + rewrite bind_gets in H2. discriminate H2.
  - apply bind_inv in H as [[[] [m2 [H2 H]]] | [e [H2 ->]]].
    + rewrite bind_gets in H2. inversion H2; subst; clear H2.
      rewrite (bind_Ok _ _ _ _ _ (PubsubContentUpdates_run _)) in H.
      inversion H; subst; clear H. cbn [job calls].
      destruct (AlreadyInDB _ && _).
      * eapply extends_by_trans; [ | apply extends_by_call; reflexivity ].
        exists []. cbn. now rewrite app_nil_r.
      * exists []. cbn. now rewrite app_nil_r.
    + rewrite bind_gets in H2. discriminate H2.
Qed.

(** X22. No commit without validation: a run of [DoWork] that calls the
    store's add operation or the write port's import operation, whether it
    then returns or raises, leaves a job whose file info passed
    [CheckFileIsValid] under the options of the job. *)
Theorem X22_commit_only_after_validation :
  forall status_hook m0 r m',
    DoWork HC HD W status_hook m0 = (r, m') ->
    existsb is_commit (calls m0) = false ->
    existsb is_commit (calls m') = true ->
    validated HC HD (job m') /\
    _file_import_options (job m') = _file_import_options (job m0).
Proof.
  intros status_hook m0 r m' H Hbefore Hafter.
  destruct (DoWork_stages _ _ _ _ H) as [r1 [m1 [H1 Hcases]]].
  destruct (GeneratePreImportHashAndStatus_frames W _ _ _ _ H1) as [[_ Hopt1] E1].
  assert (Hlookup : existsb is_commit (calls m1) = false).
  { rewrite <- Hbefore. eapply existsb_unchanged; [ exact E1 | ].
    intros []; cbn; congruence. }
  destruct Hcases
    as [[e [-> ->]] | [[-> [_ [_ E2]]] | [-> [_ [r2 [m2 [H2 [R2 [E2 Hc]]]]]]]]].
  - congruence.
  - rewrite (existsb_unchanged _ is_commit _ _ E2) in Hafter; [ congruence | ].
    intros []; cbn; congruence.
  - destruct (GenerateInfo_frames HC W _ _ _ _ H2) as [[[_ Hopt2] _] E3].
    assert (Hextract : existsb is_commit (calls m2) = false).
    { rewrite <- Hlookup. eapply existsb_unchanged; [ exact E3 | ].
      intros []; cbn; congruence. }
    destruct Hc as [Hc | Hvalid]; [ congruence | ].
    split; [ exact Hvalid | ].
    destruct R2 as [[_ Hopt3] _]. congruence.
Qed.

(** X23. Whatever a run of [DoWork] does, and whether it returns or raises,
    the job keeps the path and the options it was constructed with, and the
    record of calls only grows. *)
Theorem X23_job_keeps_path_and_options :
  forall status_hook m0 r m',
    DoWork HC HD W status_hook m0 = (r, m') ->
    _temp_path (job m') = _temp_path (job m0) /\
    _file_import_options (job m') = _file_import_options (job m0) /\
    exists added, calls m' = (calls m0 ++ added)%list.
Proof.
  intros status_hook m0 r m' H.
  destruct (DoWork_stages _ _ _ _ H) as [r1 [m1 [H1 Hcases]]].
  destruct (GeneratePreImportHashAndStatus_frames W _ _ _ _ H1)
    as [[Hpath1 Hopt1] [a1 [E1 _]]].
  destruct Hcases
    as [[e [-> ->]]
       | [[-> [_ [[Hpath2 Hopt2] [a2 [E2 _]]]]]
         | [-> [_ [r2 [m2 [H2 [R2 [E2 _]]]]]]]]].
  - eauto.
  - repeat split; try congruence.
    exists (a1 ++ a2)%list. now rewrite E2, E1, app_assoc.
  - destruct (GenerateInfo_frames HC W _ _ _ _ H2)
      as [[[Hpath2 Hopt2] _] [a2 [E3 _]]].
    destruct R2 as [[Hpath3 Hopt3] _], E2 as [a3 [E2 _]].
    repeat split; try congruence.
    exists (a1 ++ a2 ++ a3)%list. now rewrite E2, E3, E1, !app_assoc.
Qed.

End SafetyProperties.

Ltac run_in H :=
  repeat first
    [ rewrite bind_assoc in H | rewrite bind_gets in H | rewrite bind_modify in H
    | rewrite bind_ret in H | rewrite bind_hook in H | rewrite bind_call in H ];
  cbv beta iota in H.

Ltac fields_in H :=
  unfold set_pre_import_file_status, set_post_import_file_status, set_file_info,
    set_thumbnail_bytes, set_phashes, set_extra_hashes,
    set_file_modified_timestamp, set_mime, GetHash, GetMime in H;
  cbn [job calls after_call call_status_hook
         _temp_path _file_import_options _pre_import_file_status
         _post_import_file_status _file_info _thumbnail_bytes _phashes
         _extra_hashes _file_modified_timestamp status hash mime note] in H.

(** Follow every path of the computation in [H]. *)
Ltac paths_in H :=
  repeat first
    [ progress run_in H
    | progress fields_in H
    | match type of H with
      | context [ match ?x with _ => _ end ] => destruct x eqn:?
      end ].

Lemma existsb_snoc :
  forall (P : event -> bool) l e, existsb P (l ++ [ e ]) = existsb P l || P e.
Proof. intros P l e. rewrite existsb_app. cbn. now rewrite orb_false_r. Qed.

Section ExtractionCalls.

Variable HC : HydrusConstants.
Variable W : Collaborators.

Lemma GenerateInfo_no_probe :
  forall status_hook m1 r m2,
    GenerateInfo HC W status_hook m1 = (r, m2) ->
    AllowsDecompressionBombs (_file_import_options (job m1)) = true ->
    existsb is_bomb_probe (calls m2) = existsb is_bomb_probe (calls m1).
Proof.
  intros status_hook m1 r m2 H Hallow. unfold GenerateInfo in H.
  destruct status_hook.
  all: repeat first
         [ progress run_in H
         | progress fields_in H
         | rewrite Hallow in H
         | rewrite andb_false_r in H
         | progress cbn [negb] in H
         | match type of H with
           | context [ match ?x with _ => _ end ] => destruct x eqn:?
           end ].
  all: inversion H; subst; cbn [calls job after_call];
    rewrite ?existsb_snoc; cbn [is_bomb_probe]; rewrite ?orb_false_r;
    reflexivity.
Qed.

Lemma GenerateInfo_no_sniff :
  forall status_hook m1 r m2 t,
    GenerateInfo HC W status_hook m1 = (r, m2) ->
    mime (_pre_import_file_status (job m1)) = Some t ->
    existsb is_sniff (calls m2) = existsb is_sniff (calls m1).
Proof.
  intros status_hook m1 r m2 t H Hknown. unfold GenerateInfo in H.
  destruct status_hook.
  all: run_in H; rewrite Hknown in H.
  all: paths_in H.
  all: inversion H; subst; cbn [calls job after_call];
    rewrite ?existsb_snoc; cbn [is_sniff]; rewrite ?orb_false_r;
    reflexivity.
Qed.

(** X24. What a successful extraction leaves in the job: the media type,
    which is the one the lookup knew or else the one sniffed from the file;
    the file info that was extracted for this media type; the secondary
    digests and the modified time of the file; a thumbnail exactly when the
    media type of the file info has thumbnails, and perceptual hashes exactly
    when it can be hashed perceptually. *)
Theorem X24_extraction_fills_the_job :
  forall status_hook m1 m2,
    GenerateInfo HC W status_hook m1 = (Ok tt, m2) ->
    exists t size info_mime width height duration num_frames has_audio num_words,
      (mime (_pre_import_file_status (job m1)) = Some t \/
       (mime (_pre_import_file_status (job m1)) = None /\
        HydrusFileHandling_GetMime W (_temp_path (job m1)) = Ok t)) /\
      GetMime (job m2) = Some t /\
      GetFileInfo W (_temp_path (job m1)) t
      = Ok (size, info_mime, width, height, duration, num_frames, has_audio,
            num_words) /\
      _file_info (job m2)
      = Some (size, info_mime, width, height, duration, num_frames, has_audio,
              num_words) /\
      (exists extra,
          GetExtraHashesFromPath W (_temp_path (job m1)) = Ok extra /\
          _extra_hashes (job m2) = Some extra) /\
      (exists modified,
          GetFileModifiedTimestamp W (_temp_path (job m1)) = Ok modified /\
          _file_modified_timestamp (job m2) = Some modified) /\
      (if mime_in info_mime (MIMES_WITH_THUMBNAILS HC)
       then exists thumbnail, _thumbnail_bytes (job m2) = Some thumbnail
       else _thumbnail_bytes (job m2) = _thumbnail_bytes (job m1)) /\
      (if mime_in info_mime (MIMES_WE_CAN_PHASH HC)
       then exists phashes,
           GenerateShapePerceptualHashes W (_temp_path (job m1)) info_mime
           = Ok phashes /\
           _phashes (job m2) = Some phashes
       else _phashes (job m2) = _phashes (job m1)).
Proof.
  intros status_hook m1 m2 H. unfold GenerateInfo in H.
  destruct status_hook.
  all: repeat first
         [ progress run_in H
         | progress fields_in H
         | match type of H with
           | context [ match ?x with _ => _ end ] =>
             destruct x eqn:?; try discriminate H
           end ].
  all: inversion H; subst; clear H; unfold GetMime;
    cbn [job _pre_import_file_status _file_info _extra_hashes
           _file_modified_timestamp _thumbnail_bytes _phashes mime];
    do 9 eexists;
    (split; [ first [ left; reflexivity | right; split; reflexivity ] | ]);
    (split; [ first [ reflexivity | eassumption ] | ]);
    (split; [ first [ eassumption | reflexivity ] | ]);
    (split; [ reflexivity | ]);
    (split; [ eexists; split; first [ reflexivity | eassumption ] | ]);
    (split; [ eexists; split; first [ reflexivity | eassumption ] | ]);
    repeat match goal with
           | E : mime_in _ _ = _ |- _ => rewrite E; clear E
           end;
    (split;
     [ first [ reflexivity | eexists; reflexivity ]
     | first [ reflexivity
             | eexists; split; first [ reflexivity | eassumption ] ] ]).
Qed.

End ExtractionCalls.

Section DoWorkCalls.

Variable HC : HydrusConstants.
Variable HD : HydrusData.
Variable W : Collaborators.

(** X25. A media type that the lookup knows is reused: when the pre-import
    status carries a media type after hashing and lookup, no run of [DoWork]
    calls the media-type sniffer, however the run ends. *)
Theorem X25_known_media_type_is_not_sniffed :
  forall status_hook m0 m1 t r m',
    GeneratePreImportHashAndStatus W status_hook m0 = (Ok tt, m1) ->
    mime (_pre_import_file_status (job m1)) = Some t ->
    DoWork HC HD W status_hook m0 = (r, m') ->
    existsb is_sniff (calls m') = existsb is_sniff (calls m0).
Proof.
  intros status_hook m0 m1 t r m' H1 Hknown H.
  destruct (DoWork_stages _ _ _ _ _ _ _ H) as [r1 [m1' [H1' Hcases]]].
  rewrite H1 in H1'. inversion H1'; subst r1 m1'; clear H1'.
  assert (Hlookup : existsb is_sniff (calls m1) = existsb is_sniff (calls m0)).
  { eapply existsb_unchanged;
      [ apply (GeneratePreImportHashAndStatus_frames W _ _ _ _ H1) | ].
    intros []; cbn; congruence. }
  destruct Hcases
    as [[e [Habs _]] | [[_ [_ [_ E2]]] | [_ [_ [r2 [m2 [H2 [_ [E2 _]]]]]]]]].
  - discriminate Habs.
  - rewrite <- Hlookup. eapply existsb_unchanged; [ exact E2 | ].
    intros []; cbn; congruence.
  - rewrite <- Hlookup, <- (GenerateInfo_no_sniff HC W _ _ _ _ _ H2 Hknown).
    eapply existsb_unchanged; [ exact E2 | ].
    intros []; cbn; congruence.
Qed.

(** X26. Under options that allow decompression bombs no run of [DoWork]
    calls the decompression-bomb probe, however the run ends. *)
Theorem X26_allowed_bombs_are_not_probed :
  forall status_hook m0 r m',
    AllowsDecompressionBombs (_file_import_options (job m0)) = true ->
    DoWork HC HD W status_hook m0 = (r, m') ->
    existsb is_bomb_probe (calls m') = existsb is_bomb_probe (calls m0).
Proof.
  intros status_hook m0 r m' Hallow H.
  destruct (DoWork_stages _ _ _ _ _ _ _ H) as [r1 [m1 [H1 Hcases]]].
  destruct (GeneratePreImportHashAndStatus_frames W _ _ _ _ H1) as [[_ Hopt] E1].
  assert (Hlookup : existsb is_bomb_probe (calls m1)
                    = existsb is_bomb_probe (calls m0)).
  { eapply existsb_unchanged; [ exact E1 | ]. intros []; cbn; congruence. }
  destruct Hcases
    as [[e [_ ->]] | [[_ [_ [_ E2]]] | [_ [_ [r2 [m2 [H2 [_ [E2 _]]]]]]]]].
  - exact Hlookup.
  - rewrite <- Hlookup. eapply existsb_unchanged; [ exact E2 | ].
    intros []; cbn; congruence.
  - rewrite <- Hopt in Hallow.
    rewrite <- Hlookup, <- (GenerateInfo_no_probe HC W _ _ _ _ H2 Hallow).
    eapply existsb_unchanged; [ exact E2 | ].
    intros []; cbn; congruence.
Qed.

End DoWorkCalls.

(** ** The status hook *)

Lemma agree_ret : forall {A : Type} (a : A), agree (ret a) (ret a).
Proof. intros A a m m' H. split; [ reflexivity | exact H ]. Qed.

Lemma agree_raise : forall {A : Type} (e : exn), agree (@raise A e) (raise e).
Proof. intros A e m m' H. split; [ reflexivity | exact H ]. Qed.

Lemma agree_lift : forall {A : Type} (x : result A), agree (lift x) (lift x).
Proof. intros A x m m' H. split; [ reflexivity | exact H ]. Qed.

Lemma agree_gets :
  forall {A : Type} (f : FileImportJob -> A), agree (gets f) (gets f).
Proof.
  intros A f m m' H. split; [ | exact H ].
  cbn. unfold observable in H. inversion H as [[Hjob Hcalls]]. now rewrite Hjob.
Qed.

Lemma agree_modify :
  forall f : FileImportJob -> FileImportJob, agree (modify f) (modify f).
Proof.
  intros f m m' H. split; [ reflexivity | ].
  unfold observable in *. cbn. inversion H as [[Hjob Hcalls]].
  now rewrite Hjob, Hcalls.
Qed.

Lemma agree_call :
  forall {A : Type} (e : event) (x : result A), agree (call e x) (call e x).
Proof.
  intros A e x m m' H. split; [ reflexivity | ].
  unfold observable in *. cbn. inversion H as [[Hjob Hcalls]].
  now rewrite !filter_app, Hjob, Hcalls.
Qed.

Lemma agree_hook :
  forall (status_hook status_hook' : bool) text,
    agree (call_status_hook status_hook text) (call_status_hook status_hook' text).
Proof.
  intros h h' text m m' H. split; [ destruct h, h'; reflexivity | ].
  unfold observable in *. inversion H as [[Hjob Hcalls]].
  destruct h, h'; cbn; rewrite ?filter_app; cbn; rewrite ?app_nil_r;
    now rewrite Hjob, Hcalls.
Qed.

Lemma agree_bind :
  forall {A B : Type} (c c' : M A) (k k' : A -> M B),
    agree c c' -> (forall a, agree (k a) (k' a)) -> agree (bind c k) (bind c' k').
Proof.
  intros A B c c' k k' Hc Hk m m' H. unfold bind.
  destruct (Hc m m' H) as [Hr Ho].
  destruct (c m) as [[a | e] n], (c' m') as [[a' | e'] n']; cbn in Hr, Ho;
    inversion Hr; subst.
  - apply Hk. exact Ho.
  - split; [ reflexivity | exact Ho ].
Qed.

Lemma agree_try_except :
  forall {A : Type} (body body' : M A) (handler handler' : exn -> option (M A)),
    agree body body' ->
    (forall e,
        match handler e, handler' e with
        | Some h, Some h' => agree h h'
        | None, None => True
        | _, _ => False
        end) ->
    agree (try_except body handler) (try_except body' handler').
Proof.
  intros A body body' handler handler' Hb Hh m m' H. unfold try_except.
  destruct (Hb m m' H) as [Hr Ho].
  destruct (body m) as [[a | e] n], (body' m') as [[a' | e'] n']; cbn in Hr, Ho;
    inversion Hr; subst.
  - split; [ reflexivity | exact Ho ].
  - specialize (Hh e').
    destruct (handler e') as [h |], (handler' e') as [h' |]; try contradiction.
    + apply Hh. exact Ho.
    + split; [ reflexivity | exact Ho ].
Qed.

Ltac agree_step :=
  lazymatch goal with
  | |- agree (bind _ _) (bind _ _) => apply agree_bind; [ | intro ]
  | |- agree (ret _) (ret _) => apply agree_ret
  | |- agree (raise _) (raise _) => apply agree_raise
  | |- agree (lift _) (lift _) => apply agree_lift
  | |- agree (gets _) (gets _) => apply agree_gets
  | |- agree (modify _) (modify _) => apply agree_modify
  | |- agree (call_status_hook _ _) (call_status_hook _ _) => apply agree_hook
  | |- agree (call _ _) (call _ _) => apply agree_call
  | |- agree (try_except _ _) (try_except _ _) =>
    apply agree_try_except;
    [ | let e := fresh "e" in intros e; destruct e; try exact I ]
  | |- agree (if ?b then _ else _) _ => destruct b
  | |- agree (match ?x with _ => _ end) _ => destruct x
  | |- agree (let _ := _ in _) _ => cbv zeta
  end.

Section HookProperties.

Variable HC : HydrusConstants.
Variable HD : HydrusData.
Variable W : Collaborators.

Lemma GeneratePreImportHashAndStatus_agree :
  forall h h',
    agree (GeneratePreImportHashAndStatus W h) (GeneratePreImportHashAndStatus W h').
Proof.
  intros h h'. unfold GeneratePreImportHashAndStatus, CheckFileImportStatus.
  repeat agree_step.
Qed.

Lemma GenerateInfo_agree :
  forall h h', agree (GenerateInfo HC W h) (GenerateInfo HC W h').
Proof.
  intros h h'. unfold GenerateInfo.
  repeat agree_step.
Qed.

Lemma DoWork_agree :
  forall h h', agree (DoWork HC HD W h) (DoWork HC HD W h').
Proof.
  intros h h'.
  unfold DoWork, DoWork_import, DoWork_commit, check_or_veto,
    CheckIsGoodToImport, PubsubContentUpdates.
  repeat agree_step.
  - apply GeneratePreImportHashAndStatus_agree.
  - apply GenerateInfo_agree.
Qed.


End HookProperties.

(** * The further properties on the examples *)

Lemma X1_download_violation_prefix_witness :
  exists message,
    FileSizeException
      "Download was at least 400B but the upper limit for gifs is 300B."
    = FileSizeException message /\
    String.prefix "Download was at least " message = true.
Proof.
  apply (X1_download_violation_prefix Example.HC Example.HD Faulty.sized
           (Some Example.GIF) 400 false).
  reflexivity.
Defined.

Lemma X2_download_rejection_is_monotone_witness :
  exists e',
    CheckNetworkDownload Example.HC Example.HD Faulty.sized None 700 true = Raise e'.
Proof.
  eapply (X2_download_rejection_is_monotone Example.HC Example.HD Faulty.sized
            None 600).
  - reflexivity.
  - lia.
Defined.

Lemma X3_valid_file_is_never_rejected_in_download_witness :
  CheckNetworkDownload Example.HC Example.HD Faulty.sized (Some Example.JPEG) 250 false
  = Ok tt /\
  CheckNetworkDownload Example.HC Example.HD Faulty.sized (Some Example.JPEG) 400 true
  = Ok tt.
Proof.
  destruct (X3_valid_file_is_never_rejected_in_download Example.HC Example.HD
              Faulty.sized 400 Example.JPEG None None eq_refl
              (Some Example.JPEG) (or_intror eq_refl)) as [Hpart Hfull].
  split; [ apply Hpart; lia | exact Hfull ].
Defined.

Lemma X4_complete_download_is_valid_file_witness :
  CheckFileIsValid Example.HC Example.HD Faulty.sized 400 Example.JPEG
    (Some 64) (Some 48) = Ok tt.
Proof.
  apply X4_complete_download_is_valid_file; reflexivity.
Defined.

Lemma X5_gif_limit_order_differs_witness :
  CheckFileIsValid Example.HC Example.HD Faulty.sized 600 Example.GIF None None
  = Raise (FileSizeException "File was 600B but the upper limit is 500B.") /\
  CheckNetworkDownload Example.HC Example.HD Faulty.sized (Some Example.GIF) 600 true
  = Raise (FileSizeException
             "Download was apparently 600B but the upper limit for gifs is 300B.").
Proof.
  apply (X5_gif_limit_order_differs Example.HC Example.HD Faulty.sized 600 None None
           500 300 true).
  - reflexivity.
  - reflexivity.
  - lia.
  - lia.
  - cbn. lia.
Defined.


Lemma X11_step_versions_witness :
  (1 <= 1 <= 4 /\ 2 = 1 + 1) /\
  _UpdateSerialisableInfo 7 Example.v1 = Ok None.
Proof.
  split.
  - eapply (proj1 (X11_step_versions 1 Example.v1)). reflexivity.
  - apply (proj2 (X11_step_versions 7 Example.v1)). right. lia.
Defined.


Lemma X15_reconciler_lets_other_faults_through_witness :
  CheckFileImportStatus Faulty.unreadable_store Example.present
    (Faulty.fresh FileImportOptions__init__)
  = (Raise (Exception "permission denied"),
     after_call (Call_GetFilePath Example.digest Example.JPEG)
       (Faulty.fresh FileImportOptions__init__)).
Proof.
  apply X15_reconciler_lets_other_faults_through; try reflexivity.
  intros message. discriminate.
Defined.


Lemma X17_lookup_forces_the_digest_witness :
  exists m1,
    GeneratePreImportHashAndStatus Faulty.new_file false
      (Faulty.fresh FileImportOptions__init__) = (Ok tt, m1) /\
    GetHash (job m1) = Some Example.digest.
Proof.
  pose (m1 := ltac:(computed
                      (snd (GeneratePreImportHashAndStatus Faulty.new_file false
                              (Faulty.fresh FileImportOptions__init__))))).
  assert (Hrun : GeneratePreImportHashAndStatus Faulty.new_file false
                   (Faulty.fresh FileImportOptions__init__) = (Ok tt, m1))
    by reflexivity.
  destruct (X17_lookup_forces_the_digest Faulty.new_file false
              (Faulty.fresh FileImportOptions__init__) m1 Hrun)
    as [h [found [Hh [_ [Hhash _]]]]].
  injection Hh as <-.
  exists m1. split; [ exact Hrun | exact Hhash ].
Defined.

Lemma X18_missing_file_is_imported_again_witness :
  exists m1,
    GeneratePreImportHashAndStatus Faulty.lost_file true
      (Faulty.fresh FileImportOptions__init__) = (Ok tt, m1) /\
    ShouldImport (_pre_import_file_status (job m1)) FileImportOptions__init__ = true.
Proof.
  destruct (X18_missing_file_is_imported_again Faulty.lost_file true
              (Faulty.fresh FileImportOptions__init__)
              Example.digest Example.present Example.JPEG "no file"
              eq_refl eq_refl eq_refl eq_refl eq_refl eq_refl)
    as [m1 [Hrun [_ Hshould]]].
  exists m1. split; [ exact Hrun | apply Hshould ].
Defined.

Lemma X19_valid_file_is_committed_witness :
  fst (run_job Example.HC Example.HD Faulty.new_file "in.jpg" FileImportOptions__init__
         true)
  = Ok (mkFileImportStatus STATUS_SUCCESSFUL_AND_NEW (Some Example.digest)
          (Some Example.JPEG) "").
Proof.
  pose (m0 := Faulty.fresh FileImportOptions__init__).
  pose (m1 := ltac:(computed
                      (snd (GeneratePreImportHashAndStatus Faulty.new_file true
                              (Faulty.fresh FileImportOptions__init__))))).
  pose (m2 := ltac:(computed
                      (snd (GenerateInfo Example.HC Faulty.new_file true
                              (snd (GeneratePreImportHashAndStatus Faulty.new_file
                                      true
                                      (Faulty.fresh FileImportOptions__init__))))))).
  destruct (X19_valid_file_is_committed Example.HC Example.HD Faulty.new_file
              true m0 m1 m2 600 Example.JPEG (Some 64) (Some 48) None None false
              None
              (mkFileImportStatus STATUS_SUCCESSFUL_AND_NEW (Some Example.digest)
                 (Some Example.JPEG) ""))
    as [m' [Hrun _]].
  - reflexivity.
  - reflexivity.
  - reflexivity.
  - reflexivity.
  - reflexivity.
  - reflexivity.
  - reflexivity.
  - change (fst (DoWork Example.HC Example.HD Faulty.new_file true m0)
            = Ok (mkFileImportStatus STATUS_SUCCESSFUL_AND_NEW (Some Example.digest)
                    (Some Example.JPEG) "")).
    rewrite Hrun. reflexivity.
Defined.

Lemma X20_failed_add_stops_the_import_witness :
  fst (run_job Example.HC Example.HD (Faulty.failing_add Faulty.new_file) "in.jpg"
         FileImportOptions__init__ false)
  = Raise (Exception "disk full").
Proof.
  pose (m0 := Faulty.fresh FileImportOptions__init__).
  pose (m1 := ltac:(computed
                      (snd (GeneratePreImportHashAndStatus
                              (Faulty.failing_add Faulty.new_file) false
                              (Faulty.fresh FileImportOptions__init__))))).
  pose (m2 := ltac:(computed
                      (snd (GenerateInfo Example.HC
                              (Faulty.failing_add Faulty.new_file) false
                              (snd (GeneratePreImportHashAndStatus
                                      (Faulty.failing_add Faulty.new_file) false
                                      (Faulty.fresh FileImportOptions__init__))))))).
  destruct (X20_failed_add_stops_the_import Example.HC Example.HD
              (Faulty.failing_add Faulty.new_file)
              false m0 m1 m2 600 Example.JPEG (Some 64) (Some 48) None None false
              None (Exception "disk full"))
    as [m' [Hrun _]].
  - reflexivity.
  - reflexivity.
  - reflexivity.
  - reflexivity.
  - reflexivity.
  - reflexivity.
  - change (fst (DoWork Example.HC Example.HD (Faulty.failing_add Faulty.new_file)
                   false m0)
            = Raise (Exception "disk full")).
    rewrite Hrun. reflexivity.
Defined.

Lemma X21_thumbnail_failure_is_fatal_witness :
  fst (run_job Example.HC Example.HD (Faulty.failing_renderer Faulty.new_file)
         "in.jpg" FileImportOptions__init__ false)
  = Raise (DamagedOrUnusualFileException
             "Could not render a thumbnail: truncated file").
Proof.
  pose (m0 := Faulty.fresh FileImportOptions__init__).
  pose (m1 := ltac:(computed
                      (snd (GeneratePreImportHashAndStatus
                              (Faulty.failing_renderer Faulty.new_file) false
                              (Faulty.fresh FileImportOptions__init__))))).
  destruct (X21_thumbnail_failure_is_fatal Example.HC Example.HD
              (Faulty.failing_renderer Faulty.new_file)
              false m0 m1 Example.JPEG 600 Example.JPEG (Some 64) (Some 48) None
              None false None "truncated file")
    as [m' [Hrun _]].
  - reflexivity.
  - reflexivity.
  - right. split; reflexivity.
  - left. reflexivity.
  - reflexivity.
  - reflexivity.
  - reflexivity.
  - change (fst (DoWork Example.HC Example.HD
                   (Faulty.failing_renderer Faulty.new_file) false m0)
            = Raise (DamagedOrUnusualFileException
                       "Could not render a thumbnail: truncated file")).
    rewrite Hrun. reflexivity.
Defined.

Lemma X22_commit_only_after_validation_witness :
  validated Example.HC Example.HD
    (job (snd (run_job Example.HC Example.HD Faulty.new_file "in.jpg"
                 FileImportOptions__init__ false))).
Proof.
  pose (r := ltac:(computed
                     (fst (run_job Example.HC Example.HD Faulty.new_file "in.jpg"
                             FileImportOptions__init__ false)))).
  pose (m' := ltac:(computed
                      (snd (run_job Example.HC Example.HD Faulty.new_file "in.jpg"
                              FileImportOptions__init__ false)))).
  assert (Hrun : DoWork Example.HC Example.HD Faulty.new_file false
                   (Faulty.fresh FileImportOptions__init__) = (r, m'))
    by reflexivity.
  destruct (X22_commit_only_after_validation Example.HC Example.HD Faulty.new_file
              false (Faulty.fresh FileImportOptions__init__) r m' Hrun)
    as [Hvalid _].
  - reflexivity.
  - reflexivity.
  - change (validated Example.HC Example.HD
              (job (snd (DoWork Example.HC Example.HD Faulty.new_file false
                           (Faulty.fresh FileImportOptions__init__))))).
    rewrite Hrun. exact Hvalid.
Defined.

Lemma X23_job_keeps_path_and_options_witness :
  _temp_path
    (job (snd (run_job Example.HC Example.HD (Faulty.failing_add Faulty.new_file)
                 "in.jpg" Faulty.sized true))) = "in.jpg" /\
  _file_import_options
    (job (snd (run_job Example.HC Example.HD (Faulty.failing_add Faulty.new_file)
                 "in.jpg" Faulty.sized true))) = Faulty.sized.
Proof.
  pose (r := ltac:(computed
                     (fst (run_job Example.HC Example.HD
                             (Faulty.failing_add Faulty.new_file) "in.jpg"
                             Faulty.sized true)))).
  pose (m' := ltac:(computed
                      (snd (run_job Example.HC Example.HD
                              (Faulty.failing_add Faulty.new_file) "in.jpg"
                              Faulty.sized true)))).
  assert (Hrun : DoWork Example.HC Example.HD (Faulty.failing_add Faulty.new_file)
                   true (Faulty.fresh Faulty.sized) = (r, m'))
    by reflexivity.
  destruct (X23_job_keeps_path_and_options Example.HC Example.HD
              (Faulty.failing_add Faulty.new_file) true (Faulty.fresh Faulty.sized)
              r m' Hrun)
    as [Hpath [Hoptions _]].
  change (_temp_path
            (job (snd (DoWork Example.HC Example.HD
                         (Faulty.failing_add Faulty.new_file) true
                         (Faulty.fresh Faulty.sized)))) = "in.jpg" /\
          _file_import_options
            (job (snd (DoWork Example.HC Example.HD
                         (Faulty.failing_add Faulty.new_file) true
                         (Faulty.fresh Faulty.sized)))) = Faulty.sized).
  rewrite Hrun. split; [ exact Hpath | exact Hoptions ].
Defined.

Lemma X24_extraction_fills_the_job_witness :
  exists m1 m2,
    GeneratePreImportHashAndStatus Faulty.new_file false
      (Faulty.fresh FileImportOptions__init__) = (Ok tt, m1) /\
    GenerateInfo Example.HC Faulty.new_file false m1 = (Ok tt, m2) /\
    GetMime (job m2) = Some Example.JPEG /\
    _file_info (job m2) = Some (Example.info 600 Example.JPEG).
Proof.
  pose (m1 := ltac:(computed
                      (snd (GeneratePreImportHashAndStatus Faulty.new_file false
                              (Faulty.fresh FileImportOptions__init__))))).
  pose (m2 := ltac:(computed
                      (snd (GenerateInfo Example.HC Faulty.new_file false
                              (snd (GeneratePreImportHashAndStatus Faulty.new_file
                                      false
                                      (Faulty.fresh FileImportOptions__init__))))))).
  assert (Hrun : GenerateInfo Example.HC Faulty.new_file false m1 = (Ok tt, m2))
    by reflexivity.
  destruct (X24_extraction_fills_the_job Example.HC Faulty.new_file false m1 m2 Hrun)
    as (t & size & info_mime & width & height & duration & num_frames & has_audio
        & num_words & Hresolved & Hmime & Hcall & Hinfo & _).
  exists m1, m2.
  split; [ reflexivity | ]. split; [ exact Hrun | ].
  destruct Hresolved as [Hknown | [_ Hsniffed]]; [ discriminate Hknown | ].
  injection Hsniffed as <-.
  split; [ exact Hmime | ].
  rewrite Hinfo. injection Hcall as <- <- <- <- <- <- <- <-. reflexivity.
Defined.

Lemma X25_known_media_type_is_not_sniffed_witness :
  existsb is_sniff
    (calls (snd (run_job Example.HC Example.HD Faulty.deleted_file "in.jpg"
                   Faulty.reimporting false)))
  = false.
Proof.
  pose (m1 := ltac:(computed
                      (snd (GeneratePreImportHashAndStatus Faulty.deleted_file false
                              (Faulty.fresh Faulty.reimporting))))).
  pose (r := ltac:(computed
                     (fst (run_job Example.HC Example.HD Faulty.deleted_file "in.jpg"
                             Faulty.reimporting false)))).
  pose (m' := ltac:(computed
                      (snd (run_job Example.HC Example.HD Faulty.deleted_file "in.jpg"
                              Faulty.reimporting false)))).
  assert (Hrun : DoWork Example.HC Example.HD Faulty.deleted_file false
                   (Faulty.fresh Faulty.reimporting) = (r, m'))
    by reflexivity.
  change (existsb is_sniff
            (calls (snd (DoWork Example.HC Example.HD Faulty.deleted_file false
                           (Faulty.fresh Faulty.reimporting)))) = false).
  rewrite Hrun.
  apply (X25_known_media_type_is_not_sniffed Example.HC Example.HD
           Faulty.deleted_file false (Faulty.fresh Faulty.reimporting) m1
           Example.JPEG r m').
  - reflexivity.
  - reflexivity.
  - exact Hrun.
Defined.

Lemma X26_allowed_bombs_are_not_probed_witness :
  existsb is_bomb_probe
    (calls (snd (run_job Example.HC Example.HD Faulty.new_bomb "in.jpg"
                   FileImportOptions__init__ false)))
  = false.
Proof.
  pose (r := ltac:(computed
                     (fst (run_job Example.HC Example.HD Faulty.new_bomb "in.jpg"
                             FileImportOptions__init__ false)))).
  pose (m' := ltac:(computed
                      (snd (run_job Example.HC Example.HD Faulty.new_bomb "in.jpg"
                              FileImportOptions__init__ false)))).
  assert (Hrun : DoWork Example.HC Example.HD Faulty.new_bomb false
                   (Faulty.fresh FileImportOptions__init__) = (r, m'))
    by reflexivity.
  change (existsb is_bomb_probe
            (calls (snd (DoWork Example.HC Example.HD Faulty.new_bomb false
                           (Faulty.fresh FileImportOptions__init__)))) = false).
  rewrite Hrun.
  apply (X26_allowed_bombs_are_not_probed Example.HC Example.HD Faulty.new_bomb
           false (Faulty.fresh FileImportOptions__init__) r m').
  - reflexivity.
  - exact Hrun.
Defined.
